(** * libblockdev, swap plugin (src/plugins/swap.c)

    A shallow embedding of the four entry points of the swap plugin:
    [bd_swap_mkswap], [bd_swap_swapon], [bd_swap_swapoff] and
    [bd_swap_swapstatus].

    The plugin is C code over GLib.  What lies outside the plugin is
    answered by a [World] of oracles.  The calls that act on a file or run a
    program (GLib I/O and [bd_utils_exec_and_report_error]) are recorded in a
    trace of [event]s, so that "which command was issued" and "where did the
    probe seek" are statements about the trace; [getpagesize], which takes
    no argument and touches nothing, is answered by the world and is no
    event.  C strings are [string]s; raw buffers
    ([dev_status], the contents of /proc/swaps) are [string]s that may hold
    NUL bytes and are read through [cstring], as C reads them. *)

From Stdlib Require Import ZArith List String Ascii Bool Lia DecimalString.
Import ListNotations.

Local Open Scope string_scope.
Local Open Scope list_scope.
Local Open Scope Z_scope.

(** ** C strings and buffers *)

Module CStr.

Definition NUL : ascii := "000"%char.
Definition LF : ascii := "010"%char.

(** The C string stored at the start of a buffer: the bytes before the first
    NUL.  A buffer without NUL is read to its end, where every buffer of the
    plugin has its terminator ([dev_status[10] = '\0'], and the byte
    [g_file_get_contents] appends). *)
Fixpoint cstring (buf : string) : string :=
  match buf with
  | EmptyString => EmptyString
  | String c rest => if Ascii.eqb c NUL then EmptyString else String c (cstring rest)
  end.

(** [drop n s]: the bytes of [s] from index [n] on. *)
Fixpoint drop (n : nat) (s : string) : string :=
  match n, s with
  | O, _ => s
  | S n', EmptyString => EmptyString
  | S n', String _ rest => drop n' rest
  end.

(** [p + n] for a pointer [p] to the C string [s]: the C string that starts
    [n] bytes further.  Up to [n = strlen s] this stays inside the string
    (at [n = strlen s] it is the terminator, so the empty string) and is
    [Some]; beyond, the pointer is past the terminator, where the bytes are
    those of the buffer that holds [s] and not of [s]: [None]. *)
Definition offset (s : string) (n : nat) : option string :=
  if (n <=? String.length s)%nat then Some (drop n s) else None.

(** GLib: [g_str_has_prefix (str, prefix)] is
    [strncmp (str, prefix, strlen (prefix)) == 0]. *)
Definition g_str_has_prefix (str prefix : string) : bool := String.prefix prefix str.

(** [strchr (s, c)] on a C string without NUL inside: the index of the first
    [c], or [None] where C returns NULL. *)
Fixpoint strchr (s : string) (c : ascii) : option nat :=
  match s with
  | EmptyString => None
  | String d rest =>
      if Ascii.eqb d c then Some O
      else match strchr rest c with
           | Some i => Some (S i)
           | None => None
           end
  end.

End CStr.

Import CStr.

(** ** GLib types *)

(** [GError]: only its [message] is read by the plugin. *)
Record GError : Type := { message : string }.

Inductive GIOStatus : Type :=
| G_IO_STATUS_ERROR
| G_IO_STATUS_NORMAL
| G_IO_STATUS_EOF
| G_IO_STATUS_AGAIN.

Definition GIOStatus_eqb (a b : GIOStatus) : bool :=
  match a, b with
  | G_IO_STATUS_ERROR, G_IO_STATUS_ERROR
  | G_IO_STATUS_NORMAL, G_IO_STATUS_NORMAL
  | G_IO_STATUS_EOF, G_IO_STATUS_EOF
  | G_IO_STATUS_AGAIN, G_IO_STATUS_AGAIN => true
  | _, _ => false
  end.

(** An open channel; it remembers the file it was opened on. *)
Record GIOChannel : Type := { channel_file : string }.

(** The buffer [g_file_get_contents] allocates: its address and its bytes
    ([length] of the C code is the number of bytes; a NUL follows them). *)
Record Buffer : Type := { addr : Z; bytes : string }.

(** GLib's macro (gmacros.h):
    [#define CLAMP(x, low, high) (((x) > (high)) ? (high) : (((x) < (low)) ? (low) : (x)))] *)
Definition CLAMP (x low high : Z) : Z :=
  if x >? high then high else if x <? low then low else x.

(** [gint] is a 32-bit two's complement integer. *)
Definition gint_wrap (z : Z) : Z := (z + 2 ^ 31) mod 2 ^ 32 - 2 ^ 31.
Definition gint_range (z : Z) : Prop := - 2 ^ 31 <= z < 2 ^ 31.

(** [guint8] arithmetic: [next_arg++]. *)
Definition guint8_incr (n : Z) : Z := (n + 1) mod 256.

(** [g_strdup_printf ("%d", n)]: the decimal digits of [n], with a minus sign
    when it is negative. *)
Definition printf_d (n : Z) : string := NilZero.string_of_int (Z.to_int n).

(** ** Calls that leave the plugin *)

Inductive event : Type :=
| EvOpen (device : string)                 (* g_io_channel_new_file (device, "r", ..) *)
| EvSeek (ch : GIOChannel) (position : Z)  (* g_io_channel_seek_position (.., G_SEEK_SET, ..) *)
| EvRead (ch : GIOChannel) (count : Z)     (* g_io_channel_read_chars *)
| EvShutdown (ch : GIOChannel)             (* g_io_channel_shutdown *)
| EvGetContents (file : string)            (* g_file_get_contents *)
| EvReadLink (file : string)               (* g_file_read_link *)
| EvExec (argv : list string).             (* bd_utils_exec_and_report_error *)

(** What the outside answers.  Each GLib call gives its C return value and the
    [GError] it stored through its last argument, if it stored one. *)
Record World : Type := {
  getpagesize : Z;
  g_io_channel_new_file : string -> option GIOChannel * option GError;
  g_io_channel_seek_position : GIOChannel -> Z -> GIOStatus * option GError;
  (* channel, position reached by the seek, count: status, the bytes stored
     in the buffer (their number is [num_read]) and the error *)
  g_io_channel_read_chars : GIOChannel -> Z -> Z -> GIOStatus * string * option GError;
  g_file_get_contents : string -> option Buffer * option GError;
  g_file_read_link : string -> option string * option GError;
  (* the bytes that follow the terminator of the link target in the buffer
     that [g_file_read_link] returned for the file: GLib allocates at least
     256 bytes for it and clears none of them *)
  g_file_read_link_rest : string -> string;
  (* argv: the return value and what is left in [*error_message] *)
  bd_utils_exec_and_report_error : list string -> bool * option string
}.

(** ** Runs: a trace of calls and how the function ended *)

Inductive result (A : Type) : Type :=
| Returned (a : A)
| Fault        (* a NULL pointer was dereferenced *)
| OutOfFuel.   (* the loop did not finish within the fuel given to the model *)

Arguments Returned {A} a.
Arguments Fault {A}.
Arguments OutOfFuel {A}.

Definition run (A : Type) : Type := (list event * result A)%type.

Definition ret {A : Type} (a : A) : run A := ([], Returned a).

(** Sequencing: the continuation runs only after a return, and its calls
    follow those made so far. *)
Definition bind {A B : Type} (m : run A) (k : A -> run B) : run B :=
  match snd m with
  | Returned a => (fst m ++ fst (k a), snd (k a))
  | Fault => (fst m, Fault)
  | OutOfFuel => (fst m, OutOfFuel)
  end.

Definition call {A : Type} (e : event) (answer : A) : run A := ([e], Returned answer).

Declare Scope run_scope.
Delimit Scope run_scope with run.
Notation "x <- m ;; k" := (bind m (fun x => k))
  (at level 100, m at next level, right associativity) : run_scope.
Notation "' p <- m ;; k" := (bind m (fun x => let 'p := x in k))
  (at level 100, p pattern, m at next level, right associativity) : run_scope.
Notation "m ;; k" := (bind m (fun _ => k))
  (at level 100, right associativity) : run_scope.

(** The commands a trace issued, in order. *)
Fixpoint commands (t : list event) : list (list string) :=
  match t with
  | [] => []
  | EvExec argv :: t' => argv :: commands t'
  | _ :: t' => commands t'
  end.

(** ** The local variable [GError *error] *)

(** A GLib call leaves [error] alone unless it stores an error. *)
Definition store (error stored : option GError) : option GError :=
  match stored with
  | Some e => Some e
  | None => error
  end.

(** [error->message]. *)
Definition error_message_of (error : option GError) : run string :=
  match error with
  | Some e => ret (message e)
  | None => ([], Fault)
  end.

(** ** Argument vectors *)

(** [argv[i] = s] on an array of [gchar *]; [None] is NULL. *)
Fixpoint array_set (argv : list (option string)) (i : nat) (s : string) : list (option string) :=
  match argv, i with
  | [], _ => []
  | _ :: rest, O => Some s :: rest
  | a :: rest, S i' => a :: array_set rest i' s
  end.

(** The arguments of a NULL-terminated vector. *)
Fixpoint arguments (argv : list (option string)) : list string :=
  match argv with
  | Some s :: rest => s :: arguments rest
  | _ => []
  end.

(** ** The plugin *)

Section Plugin.

Variable W : World.

Local Open Scope run_scope.

Definition exec_and_report_error (argv : list (option string)) : run (bool * option string) :=
  call (EvExec (arguments argv)) (bd_utils_exec_and_report_error W (arguments argv)).

(** [bd_swap_mkswap] (swap.c, lines 43-60).  [label] is [None] for NULL. *)
Definition bd_swap_mkswap (device : string) (label : option string) : run (bool * option string) :=
  let next_arg := 2 in
  let argv := [Some "mkswap"; Some "-f"; None; None; None; None] in
  let '(argv, next_arg) :=
    match label with
    | Some l =>
        let argv := array_set argv (Z.to_nat next_arg) "-L" in
        let next_arg := guint8_incr next_arg in
        let argv := array_set argv (Z.to_nat next_arg) l in
        let next_arg := guint8_incr next_arg in
        (argv, next_arg)
    | None => (argv, next_arg)
    end in
  let argv := array_set argv (Z.to_nat next_arg) device in
  exec_and_report_error argv.

(** [bd_swap_swapoff] (swap.c, lines 148-153). *)
Definition bd_swap_swapoff (device : string) : run (bool * option string) :=
  let argv := [Some "swapoff"; None; None] in
  let argv := array_set argv 1 device in
  exec_and_report_error argv.

(** The format check of [bd_swap_swapon] (swap.c, lines 112-121) on the
    eleven bytes of [dev_status]: [Some msg] is the refusal stored in
    [*error_message], [None] lets the activation go on. *)
Definition check_dev_status (dev_status : string) : option string :=
  if g_str_has_prefix dev_status "SWAP-SPACE" then
    Some "Old swap format, cannot activate."
  else if g_str_has_prefix dev_status "S1SUSPEND" || g_str_has_prefix dev_status "S2SUSPEND" then
    Some "Suspended system on the swap device, cannot activate."
  else if negb (g_str_has_prefix dev_status "SWAPSPACE2") then
    Some "Unknown swap space format, cannot activate."
  else None.

(** [bd_swap_swapon] (swap.c, lines 70-139).  [to_free_idx] and the [g_free]
    it serves release memory only and are not modelled. *)
Definition bd_swap_swapon (device : string) (priority : Z) : run (bool * option string) :=
  let next_arg := 1 in
  let error : option GError := None in
  let argv := [Some "swapon"; None; None; None; None] in
  '(dev_file, stored) <- call (EvOpen device) (g_io_channel_new_file W device) ;;
  let error := store error stored in
  match dev_file with
  | None =>
      msg <- error_message_of error ;;
      ret (false, Some msg)
  | Some dev_file =>
      let page_size := getpagesize W in
      let page_size := CLAMP page_size 2048 page_size in
      let position := gint_wrap (page_size - 10) in
      '(io_status, stored) <-
         call (EvSeek dev_file position) (g_io_channel_seek_position W dev_file position) ;;
      let error := store error stored in
      if negb (GIOStatus_eqb io_status G_IO_STATUS_NORMAL) then
        msg <- error_message_of error ;;
        call (EvShutdown dev_file) tt ;;
        ret (false, Some ("Failed to determine device's state: " ++ msg)%string)
      else
        '(io_status, read, stored) <-
           call (EvRead dev_file 10) (g_io_channel_read_chars W dev_file position 10) ;;
        let error := store error stored in
        let num_read := Z.of_nat (String.length read) in
        if negb (GIOStatus_eqb io_status G_IO_STATUS_NORMAL) || negb (num_read =? 10) then
          msg <- error_message_of error ;;
          call (EvShutdown dev_file) tt ;;
          ret (false, Some ("Failed to determine device's state: " ++ msg)%string)
        else
          call (EvShutdown dev_file) tt ;;
          let dev_status := cstring (read ++ String NUL "")%string in
          match check_dev_status dev_status with
          | Some msg => ret (false, Some msg)
          | None =>
              let '(argv, next_arg) :=
                if priority >=? 0 then
                  let argv := array_set argv (Z.to_nat next_arg) "-p" in
                  let next_arg := guint8_incr next_arg in
                  let argv := array_set argv (Z.to_nat next_arg) (printf_d priority) in
                  let next_arg := guint8_incr next_arg in
                  (argv, next_arg)
                else (argv, next_arg) in
              let argv := array_set argv (Z.to_nat next_arg) device in
              exec_and_report_error argv
          end
  end.

(** [symlink + 3] on line 190, for the link of [device]: three bytes into the
    link target while the target has them, and else the C string that many
    bytes further in the buffer, after the terminator of the target. *)
Definition after_three (device symlink : string) : string :=
  match offset symlink 3 with
  | Some rest => rest
  | None => cstring (drop (2 - String.length symlink) (g_file_read_link_rest W device))
  end.

(** The device-mapper step of [bd_swap_swapstatus] (swap.c, lines 181-191).
    [inl] is the early return of line 186, [inr] the value of [real_device]
    after the step ([None] for NULL). *)
Definition device_mapper_step (error : option GError) (device : string)
  : run ((bool * option string) + option string) :=
  if g_str_has_prefix device "/dev/mapper" then
    '(symlink, stored) <- call (EvReadLink device) (g_file_read_link W device) ;;
    let error := store error stored in
    match symlink with
    | None =>
        msg <- error_message_of error ;;
        ret (inl (false, Some msg))
    | Some symlink =>
        ret (inr (Some ("/dev/" ++ after_three device symlink)%string))
    end
  else ret (inr None).

(** [real_device ? real_device : device] (swap.c, lines 196 and 205). *)
Definition real_or_device (real_device : option string) (device : string) : string :=
  match real_device with
  | Some r => r
  | None => device
  end.

(** Resolution, as [bd_swap_swapstatus] does it between reading the
    registry and scanning it: the step above, then the choice of line 196.
    [inl] is the early return of the function, [inr] the path it goes on to
    look for.  [error] is what the local variable holds on entry. *)
Definition resolve (error : option GError) (device : string)
  : run ((bool * option string) + string) :=
  step <- device_mapper_step error device ;;
  match step with
  | inl early => ret (inl early)
  | inr real_device => ret (inr (real_or_device real_device device))
  end.

End Plugin.

(** *** The scan of /proc/swaps

    Pointers into [file_content] are addresses, 64 bits wide as [gsize] is;
    [next_line - file_content] and [strchr (..) + 1] are computed modulo
    [2 ^ 64], so that [NULL + 1] is the address 1. *)

Definition gsize_wrap (z : Z) : Z := z mod 2 ^ 64.

(** The index in the buffer of the byte at address [p]:
    [(gsize) (p - file_content)]. *)
Definition index_of (buf : Buffer) (p : Z) : Z := gsize_wrap (p - addr buf).

(** The C string at address [p] of the buffer. *)
Definition string_at (buf : Buffer) (p : Z) : string :=
  cstring (drop (Z.to_nat (index_of buf p)) (bytes buf)).

(** [strchr (p, '\n') + 1]. *)
Definition after_newline (buf : Buffer) (p : Z) : Z :=
  match strchr (string_at buf p) LF with
  | Some i => gsize_wrap (p + Z.of_nat i + 1)
  | None => gsize_wrap (0 + 1)
  end.

(** The [while] loop of [bd_swap_swapstatus] (swap.c, lines 204-213), entered
    with [next_line]; [None] when the fuel runs out first. *)
Fixpoint scan_lines (fuel : nat) (buf : Buffer) (dev : string) (next_line : Z) : option bool :=
  match fuel with
  | O => None
  | S fuel' =>
      let length := Z.of_nat (String.length (bytes buf)) in
      if negb (next_line =? 0) && (index_of buf next_line <? length) then
        if g_str_has_prefix (string_at buf next_line) dev then Some true
        else scan_lines fuel' buf dev (after_newline buf next_line)
      else Some false
  end.

Section Status.

Variable W : World.

Local Open Scope run_scope.

(** [bd_swap_swapstatus] (swap.c, lines 163-219). *)
Definition bd_swap_swapstatus (fuel : nat) (device : string) : run (bool * option string) :=
  let error : option GError := None in
  '(contents, stored) <-
     call (EvGetContents "/proc/swaps") (g_file_get_contents W "/proc/swaps") ;;
  let error := store error stored in
  match contents with
  | None =>
      msg <- error_message_of error ;;
      ret (false, Some msg)
  | Some buf =>
      let file_content := addr buf in
      step <- device_mapper_step W error device ;;
      match step with
      | inl early => ret early
      | inr real_device =>
          let dev := real_or_device real_device device in
          if g_str_has_prefix (string_at buf file_content) dev then ret (true, None)
          else
            match scan_lines fuel buf dev (after_newline buf file_content) with
            | Some found => ret (found, None)
            | None => ([], OutOfFuel)
            end
      end
  end.

End Status.

(** Lines 196-218 of [bd_swap_swapstatus] on their own: the answer for the
    path [dev] once the registry is in [buf]. *)
Definition registry_scan (fuel : nat) (buf : Buffer) (dev : string)
  : result (bool * option string) :=
  if g_str_has_prefix (string_at buf (addr buf)) dev then Returned (true, None)
  else
    match scan_lines fuel buf dev (after_newline buf (addr buf)) with
    | Some found => Returned (found, None)
    | None => OutOfFuel
    end.

(** ** Notions of the specification *)

(** The lines of a text: the pieces between line feeds. *)
Fixpoint lines (s : string) : list string :=
  match s with
  | EmptyString => [EmptyString]
  | String c rest =>
      if Ascii.eqb c LF then EmptyString :: lines rest
      else match lines rest with
           | l :: ls => String c l :: ls
           | [] => [String c EmptyString]
           end
  end.

(** [line] starts with [path]. *)
Definition starts_with (path line : string) : bool := String.prefix path line.

(** No byte of [s] is [c]. *)
Fixpoint free_of (c : ascii) (s : string) : bool :=
  match s with
  | EmptyString => true
  | String d rest => negb (Ascii.eqb d c) && free_of c rest
  end.

(** The buffer lies in memory: not at the addresses 0 and 1, and its bytes
    and their terminator end below [2 ^ 64]. *)
Definition in_memory (buf : Buffer) : Prop :=
  1 < addr buf /\ addr buf + Z.of_nat (String.length (bytes buf)) < 2 ^ 64.


(** The seek positions and the read counts of a trace, in order. *)
Fixpoint seeks (t : list event) : list Z :=
  match t with
  | [] => []
  | EvSeek _ position :: t' => position :: seeks t'
  | _ :: t' => seeks t'
  end.

Fixpoint reads (t : list event) : list Z :=
  match t with
  | [] => []
  | EvRead _ count :: t' => count :: reads t'
  | _ :: t' => reads t'
  end.

(** The closed set of formats of the specification and its ordered table of
    prefixes, first match first. *)
Inductive SwapFormat : Type :=
| Unknown
| LegacySwapSpace
| SuspendedImageV1
| SuspendedImageV2
| ActivatableSwapSpaceV2.

Definition classify (signature : string) : SwapFormat :=
  if starts_with "SWAP-SPACE" signature then LegacySwapSpace
  else if starts_with "S1SUSPEND" signature then SuspendedImageV1
  else if starts_with "S2SUSPEND" signature then SuspendedImageV2
  else if starts_with "SWAPSPACE2" signature then ActivatableSwapSpaceV2
  else Unknown.

(** The refusal the specification attaches to a format, if any. *)
Definition refusal (f : SwapFormat) : option string :=
  match f with
  | LegacySwapSpace => Some "Old swap format, cannot activate."
  | SuspendedImageV1 | SuspendedImageV2 =>
      Some "Suspended system on the swap device, cannot activate."
  | Unknown => Some "Unknown swap space format, cannot activate."
  | ActivatableSwapSpaceV2 => None
  end.

(** The argument vector of the activation command. *)
Definition swapon_argv (device : string) (priority : Z) : list string :=
  "swapon" :: (if priority >=? 0 then ["-p"; printf_d priority] else []) ++ [device].

(** Where [bd_swap_swapon] seeks in a world. *)
Definition probe_position (W : World) : Z :=
  gint_wrap (CLAMP (getpagesize W) 2048 (getpagesize W) - 10).

(** The probe of the specification: the ten bytes read at [probe_position]
    when the device opens, the seek and the read end with
    [G_IO_STATUS_NORMAL] and ten bytes were read; [None] for an I/O failure. *)
Definition probe (W : World) (device : string) : option string :=
  match g_io_channel_new_file W device with
  | (Some ch, _) =>
      match g_io_channel_seek_position W ch (probe_position W) with
      | (G_IO_STATUS_NORMAL, _) =>
          match g_io_channel_read_chars W ch (probe_position W) 10 with
          | (G_IO_STATUS_NORMAL, signature, _) =>
              if (String.length signature =? 10)%nat then Some signature else None
          | _ => None
          end
      | _ => None
      end
  | (None, _) => None
  end.

(** ** Worlds to evaluate the plugin in *)

(** A world whose devices all open, whose seeks all succeed, whose link
    buffers hold nothing after the terminator, and which answers the read,
    the registry, the link and the command as given. *)
Definition make_world (page_size : Z) (read : GIOStatus * string * option GError)
    (registry : option Buffer * option GError) (link : option string * option GError)
  : World :=
  {| getpagesize := page_size;
     g_io_channel_new_file := fun device => (Some {| channel_file := device |}, None);
     g_io_channel_seek_position := fun _ _ => (G_IO_STATUS_NORMAL, None);
     g_io_channel_read_chars := fun _ _ _ => read;
     g_file_get_contents := fun _ => registry;
     g_file_read_link := fun _ => link;
     g_file_read_link_rest := fun _ => EmptyString;
     bd_utils_exec_and_report_error := fun _ => (true, None) |}.

(** The same world, with [rest] after the terminator of every link
    buffer. *)
Definition with_link_rest (W : World) (rest : string) : World :=
  {| getpagesize := getpagesize W;
     g_io_channel_new_file := g_io_channel_new_file W;
     g_io_channel_seek_position := g_io_channel_seek_position W;
     g_io_channel_read_chars := g_io_channel_read_chars W;
     g_file_get_contents := g_file_get_contents W;
     g_file_read_link := g_file_read_link W;
     g_file_read_link_rest := fun _ => rest;
     bd_utils_exec_and_report_error := bd_utils_exec_and_report_error W |}.


Definition no_registry : option Buffer * option GError :=
  (None, Some {| message := "Failed to open file /proc/swaps" |}).

Definition no_link : option string * option GError :=
  (None, Some {| message := "Failed to read the symbolic link" |}).

(** A registry that cannot be read, and a link that can. *)
Definition unread_registry_world : World :=
  make_world 4096 (G_IO_STATUS_EOF, "", None) no_registry (Some "../dm-2", None).

(** A device formatted as swap, on a machine with 4096-byte pages. *)
Definition swap_device_world : World :=
  make_world 4096 (G_IO_STATUS_NORMAL, "SWAPSPACE2", None) no_registry no_link.

(** A device of 4090 bytes on the same machine: the seek to 4086 succeeds,
    and the read stores the 4 bytes that are left, ends normally and sets no
    error. *)
Definition short_device_world : World :=
  make_world 4096 (G_IO_STATUS_NORMAL, "SWAP", None) no_registry no_link.

(** A device that ends at or before byte 4086: the read is at end of file,
    stores nothing and sets no error. *)
Definition ended_device_world : World :=
  make_world 4096 (G_IO_STATUS_EOF, "", None) no_registry no_link.

(** [a], a line feed, [b]. *)
Definition line (a b : string) : string := (a ++ String LF b)%string.

(** A registry in a buffer at address 4096. *)
Definition registry_world (content : string) (link : option string * option GError) : World :=
  make_world 4096 (G_IO_STATUS_EOF, "", None)
    (Some {| addr := 4096; bytes := content |}, None) link.

Definition dm2_registry : string :=
  line "Filename Type Size Used Priority"
    (line "/dev/dm-2 partition 1048576 0 -1" "").

Definition sda12_registry : string :=
  line "Filename Type Size Used Priority"
    (line "/dev/sda12 partition 1048576 0 -1" "").

(** ** What GLib promises about errors *)

(** The calls that [bd_swap_swapon] makes to probe [device] report a failure
    with a [GError]: the open when it gives no channel, the seek to
    [probe_position] when it does not end normally, and the read of 10 bytes
    there when it does not end normally or stores another number of bytes. *)
Definition probe_errors_reported (W : World) (device : string) : Prop :=
  (forall stored : option GError,
      g_io_channel_new_file W device = (None, stored) -> stored <> None)
  /\ (forall (ch : GIOChannel) (s1 : option GError) (status : GIOStatus)
             (stored : option GError),
         g_io_channel_new_file W device = (Some ch, s1) ->
         g_io_channel_seek_position W ch (probe_position W) = (status, stored) ->
         status <> G_IO_STATUS_NORMAL -> stored <> None)
  /\ (forall (ch : GIOChannel) (s1 : option GError) (status : GIOStatus)
             (read : string) (stored : option GError),
         g_io_channel_new_file W device = (Some ch, s1) ->
         g_io_channel_read_chars W ch (probe_position W) 10 = (status, read, stored) ->
         status <> G_IO_STATUS_NORMAL \/ String.length read <> 10%nat ->
         stored <> None).



(** A device whose read fails with an error that GLib reports. *)
Definition failing_read_world : World :=
  make_world 4096 (G_IO_STATUS_ERROR, "", Some {| message := "Input/output error" |})
    no_registry no_link.

(** A device in the old swap format. *)
Definition legacy_device_world : World :=
  make_world 4096 (G_IO_STATUS_NORMAL, "SWAP-SPACE", None) no_registry no_link.

(** ** Creation and deactivation *)

(** C7. [bd_swap_mkswap] makes exactly one call, the formatting command:
    "mkswap", then "-f" always, then "-L" and the label when a label is
    given, then the device; it returns what the executor returns.  In
    particular no label gives [mkswap -f device] and the label "L" gives
    [mkswap -f -L L device]. *)
Theorem bd_swap_mkswap_argv :
  forall (W : World) (device : string),
    (forall label : option string,
        let argv := "mkswap" :: "-f" ::
                    (match label with Some l => ["-L"; l] | None => [] end) ++ [device] in
        bd_swap_mkswap W device label
        = ([EvExec argv], Returned (bd_utils_exec_and_report_error W argv)))
    /\ commands (fst (bd_swap_mkswap W device None)) = [["mkswap"; "-f"; device]]
    /\ commands (fst (bd_swap_mkswap W device (Some "L"))) = [["mkswap"; "-f"; "-L"; "L"; device]].
Proof.
  intros W device. split; [|split]; try reflexivity.
  intros [l|]; reflexivity.
Qed.

(** C8. [bd_swap_swapoff] makes exactly one call, the command
    [swapoff device]: it opens, seeks and reads nothing, tests nothing, and
    returns the executor's result unchanged. *)
Theorem bd_swap_swapoff_unconditional :
  forall (W : World) (device : string),
    bd_swap_swapoff W device
    = ([EvExec ["swapoff"; device]],
       Returned (bd_utils_exec_and_report_error W ["swapoff"; device])).
Proof.
  intros W device. reflexivity.
Qed.

(** ** C strings: basic facts *)

Section CStrFacts.

Lemma ascii_eqb_refl_true (c : ascii) : Ascii.eqb c c = true.
Proof. apply Ascii.eqb_eq. reflexivity. Qed.

Lemma drop_empty (n : nat) : drop n EmptyString = EmptyString.
Proof. destruct n; reflexivity. Qed.

Lemma drop_length (n : nat) (s : string) :
  String.length (drop n s) = (String.length s - n)%nat.
Proof.
  revert s. induction n as [|n IH]; intros s.
  - simpl. lia.
  - destruct s as [|c s]; simpl; [reflexivity | apply IH].
Qed.

Lemma drop_drop (a b : nat) (s : string) : drop a (drop b s) = drop (b + a) s.
Proof.
  revert s. induction b as [|b IH]; intros s; simpl.
  - reflexivity.
  - destruct s as [|c s]; [apply drop_empty | apply IH].
Qed.

Lemma drop_all (n : nat) (s : string) :
  (String.length s <= n)%nat -> drop n s = EmptyString.
Proof.
  revert s. induction n as [|n IH]; intros [|c s] H; simpl in *;
    try reflexivity; try lia.
  apply IH. lia.
Qed.

Lemma cstring_length (s : string) :
  (String.length (cstring s) <= String.length s)%nat.
Proof.
  induction s as [|c s IH]; simpl; [lia|].
  destruct (Ascii.eqb c NUL); simpl; lia.
Qed.

Lemma cstring_free (s : string) : free_of NUL s = true -> cstring s = s.
Proof.
  induction s as [|c s IH]; simpl; [reflexivity|].
  intros H. apply andb_true_iff in H as [Hc Hs].
  apply negb_true_iff in Hc. rewrite Hc, IH by assumption. reflexivity.
Qed.

(** Moving a pointer inside a C string commutes with reading it. *)
Lemma cstring_drop (k : nat) (s : string) :
  (k <= String.length (cstring s))%nat ->
  cstring (drop k s) = drop k (cstring s).
Proof.
  revert s. induction k as [|k IH]; intros s H; [reflexivity|].
  destruct s as [|c s]; [reflexivity|].
  simpl in *. destruct (Ascii.eqb c NUL); simpl in *; [lia|].
  apply IH. lia.
Qed.

Lemma prefix_empty (s : string) : String.prefix EmptyString s = true.
Proof. destruct s; reflexivity. Qed.

Lemma prefix_cons (a b : ascii) (p s : string) :
  String.prefix (String a p) (String b s)
  = Ascii.eqb a b && String.prefix p s.
Proof.
  simpl. destruct (ascii_dec a b) as [->|Hab].
  - rewrite ascii_eqb_refl_true. reflexivity.
  - apply Ascii.eqb_neq in Hab. rewrite Hab. reflexivity.
Qed.

(** A prefix without NUL is tested on the bytes of a terminated buffer as it
    is on the C string the buffer holds. *)
Lemma prefix_cstring (p buf : string) :
  free_of NUL p = true ->
  String.prefix p (cstring (buf ++ String NUL EmptyString)%string) = String.prefix p buf.
Proof.
  revert buf. induction p as [|a p IH]; intros buf Hp.
  - rewrite !prefix_empty. reflexivity.
  - simpl in Hp. apply andb_true_iff in Hp as [Ha Hp].
    apply negb_true_iff in Ha.
    destruct buf as [|b buf].
    + reflexivity.
    + change (cstring (String b buf ++ String NUL EmptyString)%string)
        with (if Ascii.eqb b NUL then EmptyString
              else String b (cstring (buf ++ String NUL EmptyString)%string)).
      destruct (Ascii.eqb b NUL) eqn:Hb.
      * apply Ascii.eqb_eq in Hb. subst b.
        rewrite prefix_cons, Ha. reflexivity.
      * rewrite !prefix_cons, IH by assumption. reflexivity.
Qed.

(** A prefix as long as the string is the string. *)
Lemma prefix_same_length (p s : string) :
  String.length p = String.length s -> String.prefix p s = true -> p = s.
Proof.
  revert s. induction p as [|a p IH]; intros [|b s] Hl Hp; simpl in Hl;
    try discriminate; [reflexivity|].
  rewrite prefix_cons in Hp. apply andb_true_iff in Hp as [Hab Hp].
  apply Ascii.eqb_eq in Hab. subst b. f_equal. apply IH; [lia | assumption].
Qed.

End CStrFacts.

(** ** Lines and [strchr] *)

Section LineFacts.

Lemma lines_nonempty (s : string) : lines s <> [].
Proof.
  induction s as [|c s IH]; simpl; [discriminate|].
  destruct (Ascii.eqb c LF); [discriminate|].
  destruct (lines s); discriminate.
Qed.

Lemma strchr_bound (s : string) (c : ascii) (i : nat) :
  strchr s c = Some i -> (i < String.length s)%nat.
Proof.
  revert i. induction s as [|d s IH]; intros i H; simpl in *; [discriminate|].
  destruct (Ascii.eqb d c).
  - injection H as <-. lia.
  - destruct (strchr s c) as [j|]; [|discriminate].
    injection H as <-. specialize (IH j eq_refl). lia.
Qed.

(** Without a line feed the text is one line. *)
Lemma lines_no_newline (s : string) : strchr s LF = None -> lines s = [s].
Proof.
  induction s as [|c s IH]; simpl; [reflexivity|].
  destruct (Ascii.eqb c LF); [discriminate|].
  destruct (strchr s LF); [discriminate|].
  intros _. rewrite IH by reflexivity. reflexivity.
Qed.

(** At the first line feed the text splits into its first line and the lines
    of what follows; a path without line feed is a prefix of the text exactly
    when it is a prefix of that first line. *)
Lemma lines_at_newline (s : string) (i : nat) :
  strchr s LF = Some i ->
  exists first : string,
    lines s = first :: lines (drop (S i) s)
    /\ forall path : string,
         free_of LF path = true -> String.prefix path s = String.prefix path first.
Proof.
  revert i. induction s as [|c s IH]; intros i H; simpl in H; [discriminate|].
  destruct (Ascii.eqb c LF) eqn:Hc.
  - injection H as <-. exists EmptyString. split.
    + simpl. rewrite Hc. reflexivity.
    + intros [|a path] Hp; [reflexivity|].
      simpl in Hp. apply andb_true_iff in Hp as [Ha _].
      apply negb_true_iff in Ha. apply Ascii.eqb_eq in Hc. subst c.
      rewrite prefix_cons, Ha. reflexivity.
  - destruct (strchr s LF) as [j|] eqn:Hj; [|discriminate].
    injection H as <-. destruct (IH j eq_refl) as (first & Hl & Hpre).
    exists (String c first). split.
    + simpl. rewrite Hc, Hl. reflexivity.
    + intros [|a path] Hp; [reflexivity|].
      simpl in Hp. apply andb_true_iff in Hp as [_ Hp].
      rewrite !prefix_cons, (Hpre path Hp). reflexivity.
Qed.

End LineFacts.

(** ** The scan loop finds the lines *)

Section Scan.

Variable buf : Buffer.
Variable dev : string.

Hypothesis buf_in_memory : in_memory buf.
Hypothesis dev_one_line : free_of LF dev = true.

(** The text of the buffer as C reads it from its first byte. *)
Let text : string := cstring (bytes buf).

Lemma text_length : (String.length text <= String.length (bytes buf))%nat.
Proof. apply cstring_length. Qed.

Lemma index_of_inside (k : nat) :
  (k <= String.length (bytes buf))%nat ->
  index_of buf (addr buf + Z.of_nat k) = Z.of_nat k.
Proof.
  intros Hk. destruct buf_in_memory as [Hlow Hend].
  unfold index_of, gsize_wrap.
  replace (addr buf + Z.of_nat k - addr buf) with (Z.of_nat k) by lia.
  apply Z.mod_small. lia.
Qed.

Lemma string_at_inside (k : nat) :
  (k <= String.length text)%nat ->
  string_at buf (addr buf + Z.of_nat k) = drop k text.
Proof.
  intros Hk. unfold string_at.
  rewrite index_of_inside by (pose proof text_length; lia).
  rewrite Nat2Z.id. apply cstring_drop. exact Hk.
Qed.

(** [NULL + 1] is no address of the buffer: the loop stops there. *)
Lemma scan_lines_stops_at_one (fuel : nat) :
  scan_lines (S fuel) buf dev (gsize_wrap (0 + 1)) = Some false.
Proof.
  destruct buf_in_memory as [Hlow Hend].
  assert (H1 : gsize_wrap (0 + 1) = 1) by reflexivity.
  rewrite H1. simpl.
  assert (Hi : index_of buf 1 = 2 ^ 64 + 1 - addr buf).
  { unfold index_of, gsize_wrap.
    replace (1 - addr buf) with (2 ^ 64 + 1 - addr buf + (-1) * 2 ^ 64) by lia.
    rewrite Z.mod_add by lia. apply Z.mod_small. lia. }
  rewrite Hi.
  replace (2 ^ 64 + 1 - addr buf <? Z.of_nat (String.length (bytes buf))) with false
    by (symmetry; apply Z.ltb_ge; lia).
  reflexivity.
Qed.

Lemma after_newline_found (k i : nat) :
  (k <= String.length text)%nat ->
  strchr (drop k text) LF = Some i ->
  after_newline buf (addr buf + Z.of_nat k) = addr buf + Z.of_nat (k + S i)
  /\ (k + S i <= String.length text)%nat.
Proof.
  intros Hk Hi. destruct buf_in_memory as [Hlow Hend].
  pose proof text_length as Ht.
  pose proof (strchr_bound _ _ _ Hi) as Hb. rewrite drop_length in Hb.
  split; [|lia].
  unfold after_newline. rewrite string_at_inside, Hi by exact Hk.
  unfold gsize_wrap. rewrite Z.mod_small by lia. lia.
Qed.

Lemma after_newline_missing (k : nat) :
  (k <= String.length text)%nat ->
  strchr (drop k text) LF = None ->
  after_newline buf (addr buf + Z.of_nat k) = gsize_wrap (0 + 1).
Proof.
  intros Hk Hi. unfold after_newline.
  rewrite string_at_inside, Hi by exact Hk. reflexivity.
Qed.

(** One test of a line start and the move to the next one, as lines 196-203
    and 205-212 both do it. *)
Lemma test_and_advance (fuel k : nat) :
  (k <= String.length text)%nat ->
  (0 < fuel)%nat ->
  (forall k' : nat,
      (k < k')%nat -> (k' <= String.length text)%nat ->
      scan_lines fuel buf dev (addr buf + Z.of_nat k')
      = Some (existsb (starts_with dev) (lines (drop k' text)))) ->
  (if g_str_has_prefix (drop k text) dev then Some true
   else scan_lines fuel buf dev (after_newline buf (addr buf + Z.of_nat k)))
  = Some (existsb (starts_with dev) (lines (drop k text))).
Proof.
  intros Hk Hfuel Hnext. unfold g_str_has_prefix.
  destruct (strchr (drop k text) LF) as [i|] eqn:Hi.
  - destruct (lines_at_newline _ _ Hi) as (first & Hl & Hpre).
    destruct (after_newline_found k i Hk Hi) as [Ha Hle].
    rewrite drop_drop in Hl.
    rewrite Hl, (Hpre dev dev_one_line). cbn [existsb]. unfold starts_with at 1.
    destruct (String.prefix dev first); [reflexivity|].
    rewrite Ha, Hnext by lia. reflexivity.
  - rewrite (lines_no_newline _ Hi). cbn [existsb]. unfold starts_with.
    destruct (String.prefix dev (drop k text)); [reflexivity|].
    rewrite (after_newline_missing k Hk Hi).
    destruct fuel as [|fuel]; [lia|]. apply scan_lines_stops_at_one.
Qed.

Hypothesis dev_not_empty : dev <> EmptyString.

Lemma no_prefix_of_empty : String.prefix dev EmptyString = false.
Proof. destruct dev; [contradiction | reflexivity]. Qed.

(** The loop entered at the start of a line, or at the end of the buffer,
    reports whether a line from there on starts with [dev]. *)
Lemma scan_lines_spec (fuel k : nat) :
  (k <= String.length text)%nat ->
  (String.length (bytes buf) - k < fuel)%nat ->
  scan_lines fuel buf dev (addr buf + Z.of_nat k)
  = Some (existsb (starts_with dev) (lines (drop k text))).
Proof.
  revert k. induction fuel as [|fuel IH]; intros k Hk Hfuel; [lia|].
  destruct buf_in_memory as [Hlow Hend]. pose proof text_length as Ht.
  cbn [scan_lines].
  rewrite index_of_inside by lia.
  replace (addr buf + Z.of_nat k =? 0) with false by (symmetry; apply Z.eqb_neq; lia).
  cbn [negb andb].
  destruct (Z.of_nat k <? Z.of_nat (String.length (bytes buf))) eqn:Hlt.
  - apply Z.ltb_lt in Hlt. rewrite string_at_inside by exact Hk.
    apply test_and_advance; [exact Hk | lia | ].
    intros k' Hk' Hle. apply IH; lia.
  - apply Z.ltb_ge in Hlt.
    rewrite drop_all by lia. cbn [lines existsb]. unfold starts_with.
    rewrite no_prefix_of_empty. reflexivity.
Qed.

End Scan.

(** ** Activation: the probe and the gate *)

Section Activation.

Variable W : World.

(** A successful probe, call by call. *)
Lemma probe_calls (device signature : string) :
  probe W device = Some signature <->
  exists (ch : GIOChannel) (s1 s2 s3 : option GError),
    g_io_channel_new_file W device = (Some ch, s1)
    /\ g_io_channel_seek_position W ch (probe_position W) = (G_IO_STATUS_NORMAL, s2)
    /\ g_io_channel_read_chars W ch (probe_position W) 10
       = (G_IO_STATUS_NORMAL, signature, s3)
    /\ String.length signature = 10%nat.
Proof.
  unfold probe. split.
  - destruct (g_io_channel_new_file W device) as [[ch|] s1] eqn:Hopen; [|discriminate].
    destruct (g_io_channel_seek_position W ch (probe_position W)) as [[] s2] eqn:Hseek;
      try discriminate.
    destruct (g_io_channel_read_chars W ch (probe_position W) 10) as [[[] read] s3] eqn:Hread;
      try discriminate.
    destruct (String.length read =? 10)%nat eqn:Hlen; [|discriminate].
    intros [= <-]. apply Nat.eqb_eq in Hlen.
    exists ch, s1, s2, s3.
    split; [reflexivity|]. split; [exact Hseek|]. split; [exact Hread | exact Hlen].
  - intros (ch & s1 & s2 & s3 & -> & -> & -> & Hlen).
    rewrite Hlen. reflexivity.
Qed.

(** The cascade of [g_str_has_prefix] on [dev_status] is the ordered table
    of the specification on the bytes read, whatever those bytes are. *)
Lemma check_dev_status_classify (signature : string) :
  check_dev_status (cstring (signature ++ String NUL EmptyString)%string)
  = refusal (classify signature).
Proof.
  unfold check_dev_status, classify, g_str_has_prefix, starts_with.
  rewrite !prefix_cstring by reflexivity.
  destruct (String.prefix "SWAP-SPACE" signature); [reflexivity|].
  destruct (String.prefix "S1SUSPEND" signature); [reflexivity|].
  destruct (String.prefix "S2SUSPEND" signature); [reflexivity|].
  destruct (String.prefix "SWAPSPACE2" signature); reflexivity.
Qed.

(** What [bd_swap_swapon] does once the probe has read ten bytes. *)
Lemma bd_swap_swapon_probed (device signature : string) (priority : Z) :
  probe W device = Some signature ->
  exists ch : GIOChannel,
    bd_swap_swapon W device priority
    = match refusal (classify signature) with
      | Some msg =>
          ([EvOpen device; EvSeek ch (probe_position W); EvRead ch 10; EvShutdown ch],
           Returned (false, Some msg))
      | None =>
          ([EvOpen device; EvSeek ch (probe_position W); EvRead ch 10; EvShutdown ch;
            EvExec (swapon_argv device priority)],
           Returned (bd_utils_exec_and_report_error W (swapon_argv device priority)))
      end.
Proof.
  intros Hprobe. apply probe_calls in Hprobe.
  destruct Hprobe as (ch & s1 & s2 & s3 & Hopen & Hseek & Hread & Hlen).
  exists ch. unfold bd_swap_swapon. unfold probe_position in Hseek, Hread.
  rewrite Hopen. cbn [call bind ret app fst snd].
  rewrite Hseek. cbn [call bind ret app GIOStatus_eqb negb].
  rewrite Hread. cbn [call bind ret app GIOStatus_eqb negb orb].
  rewrite Hlen. cbn [Z.of_nat Pos.of_succ_nat Pos.succ Z.eqb Pos.eqb negb].
  rewrite check_dev_status_classify.
  destruct (refusal (classify signature)) as [msg|]; [reflexivity|].
  unfold swapon_argv, exec_and_report_error.
  destruct (priority >=? 0); reflexivity.
Qed.

End Activation.

(** ** The probe offset *)

Lemma CLAMP_page_size (p : Z) : CLAMP p 2048 p = Z.max p 2048.
Proof.
  unfold CLAMP. rewrite Z.gtb_ltb, Z.ltb_irrefl.
  destruct (p <? 2048) eqn:H; [apply Z.ltb_lt in H | apply Z.ltb_ge in H]; lia.
Qed.

Lemma probe_position_max (W : World) :
  gint_range (getpagesize W) ->
  probe_position W = Z.max (getpagesize W) 2048 - 10.
Proof.
  unfold gint_range, probe_position, gint_wrap. intros H.
  rewrite CLAMP_page_size.
  assert (Hpow : 2 ^ 32 = 2 * 2 ^ 31) by reflexivity.
  rewrite Z.mod_small by lia. lia.
Qed.

(** Unfolds the sequencing of a run and decides the innermost test the goal
    is stuck on. *)
Ltac run_simpl :=
  cbn [call ret app fst snd seeks reads commands negb orb andb GIOStatus_eqb] in *.

Ltac innermost_test x :=
  lazymatch x with
  | context [match ?y with _ => _ end] => innermost_test y
  | _ => x
  end.

Ltac next_case :=
  match goal with
  | |- context [match ?x with _ => _ end] =>
      let y := innermost_test x in
      let E := fresh "E" in
      destruct y eqn:E
  end;
  run_simpl.

Ltac run_cases :=
  unfold bind, error_message_of, store, exec_and_report_error in *;
  run_simpl; repeat next_case.

Section ProbeOffset.

Variable W : World.
Variable device : string.
Variable priority : Z.

(** Every run seeks at most once, at [probe_position], and reads at most
    once, ten bytes. *)
Lemma bd_swap_swapon_seeks_reads :
  forall (ch : GIOChannel) (s1 : option GError),
    g_io_channel_new_file W device = (Some ch, s1) ->
    seeks (fst (bd_swap_swapon W device priority)) = [probe_position W]
    /\ reads (fst (bd_swap_swapon W device priority))
       = match fst (g_io_channel_seek_position W ch (probe_position W)) with
         | G_IO_STATUS_NORMAL => [10]
         | _ => []
         end.
Proof.
  intros ch s1 Hopen. unfold bd_swap_swapon, probe_position.
  rewrite Hopen.
  cbn [call bind ret app fst snd seeks reads].
  set (position := gint_wrap _).
  destruct (g_io_channel_seek_position W ch position) as [status s2].
  destruct (g_io_channel_read_chars W ch position 10) as [[status' read] s3].
  destruct status; run_cases; split; reflexivity.
Qed.

End ProbeOffset.

(** C4. For every page size [p] that [getpagesize] can report (an [int]),
    [CLAMP (p, 2048, p)] is [max (p, 2048)]: 2048 when [p < 2048] and [p]
    otherwise.  Once the device is open, [bd_swap_swapon] seeks exactly once,
    to [max (p, 2048) - 10], and, when that seek ends normally, reads exactly
    once, asking for 10 bytes. *)
Theorem bd_swap_swapon_probe_offset :
  forall (W : World) (device : string) (priority : Z) (ch : GIOChannel) (s1 : option GError),
    gint_range (getpagesize W) ->
    g_io_channel_new_file W device = (Some ch, s1) ->
    let p := getpagesize W in
    let t := fst (bd_swap_swapon W device priority) in
    CLAMP p 2048 p = Z.max p 2048
    /\ (p < 2048 -> CLAMP p 2048 p = 2048)
    /\ (2048 <= p -> CLAMP p 2048 p = p)
    /\ seeks t = [Z.max p 2048 - 10]
    /\ (fst (g_io_channel_seek_position W ch (Z.max p 2048 - 10)) = G_IO_STATUS_NORMAL ->
        reads t = [10]).
Proof.
  intros W device priority ch s1 Hrange Hopen p t. subst p t.
  destruct (bd_swap_swapon_seeks_reads W device priority ch s1 Hopen) as [Hs Hr].
  rewrite (probe_position_max W Hrange) in Hs, Hr.
  repeat split.
  - apply CLAMP_page_size.
  - intros H. rewrite CLAMP_page_size. lia.
  - intros H. rewrite CLAMP_page_size. lia.
  - exact Hs.
  - intros Hn. rewrite Hr, Hn. reflexivity.
Qed.

Lemma bd_swap_swapon_probe_offset_witness :
  CLAMP 4096 2048 4096 = 4096
  /\ seeks (fst (bd_swap_swapon swap_device_world "/dev/sda2" (-1))) = [4086]
  /\ reads (fst (bd_swap_swapon swap_device_world "/dev/sda2" (-1))) = [10].
Proof.
  assert (Hrange : gint_range (getpagesize swap_device_world))
    by (unfold gint_range; simpl; lia).
  destruct (bd_swap_swapon_probe_offset swap_device_world "/dev/sda2" (-1)
              {| channel_file := "/dev/sda2" |} None Hrange eq_refl)
    as (Hc & _ & _ & Hs & Hr).
  split; [exact Hc | split; [exact Hs | apply Hr; reflexivity]].
Defined.

(** ** The activation command *)

(** C5. When the probe reads a signature that is classified as activatable,
    [bd_swap_swapon] issues exactly one command: "swapon", then "-p" and the
    decimal priority exactly when [priority >= 0], then the device; it
    returns what the executor returns.  Priority -1 gives [swapon device],
    priority 5 gives [swapon -p 5 device]. *)
Theorem bd_swap_swapon_argv :
  forall (W : World) (device signature : string),
    probe W device = Some signature ->
    classify signature = ActivatableSwapSpaceV2 ->
    (forall priority : Z,
        let argv := "swapon" :: (if priority >=? 0 then ["-p"; printf_d priority] else [])
                             ++ [device] in
        commands (fst (bd_swap_swapon W device priority)) = [argv]
        /\ snd (bd_swap_swapon W device priority)
           = Returned (bd_utils_exec_and_report_error W argv))
    /\ commands (fst (bd_swap_swapon W device (-1))) = [["swapon"; device]]
    /\ commands (fst (bd_swap_swapon W device 5)) = [["swapon"; "-p"; "5"; device]].
Proof.
  intros W device signature Hprobe Hclass.
  assert (H : forall priority : Z,
             commands (fst (bd_swap_swapon W device priority)) = [swapon_argv device priority]
             /\ snd (bd_swap_swapon W device priority)
                = Returned (bd_utils_exec_and_report_error W (swapon_argv device priority))).
  { intros priority.
    destruct (bd_swap_swapon_probed W device signature priority Hprobe) as [ch ->].
    rewrite Hclass. split; reflexivity. }
  split; [exact H|]. split; [apply (H (-1)) | apply (H 5)].
Qed.

Lemma bd_swap_swapon_argv_witness :
  commands (fst (bd_swap_swapon swap_device_world "/dev/sda2" (-1))) = [["swapon"; "/dev/sda2"]]
  /\ commands (fst (bd_swap_swapon swap_device_world "/dev/sda2" 5))
     = [["swapon"; "-p"; "5"; "/dev/sda2"]].
Proof.
  apply (bd_swap_swapon_argv swap_device_world "/dev/sda2" "SWAPSPACE2");
    reflexivity.
Defined.

(** ** The gate of the activation *)

Section Gate.

Variable W : World.
Variable device : string.
Variable priority : Z.

(** X1. After a successful probe the classification of the ten bytes decides:
    every format but the activatable one ends the call with its refusal and
    without a command; the activatable one issues the command, once. *)
Theorem bd_swap_swapon_gate :
  forall signature : string,
    probe W device = Some signature ->
    match classify signature with
    | ActivatableSwapSpaceV2 =>
        commands (fst (bd_swap_swapon W device priority)) = [swapon_argv device priority]
        /\ snd (bd_swap_swapon W device priority)
           = Returned (bd_utils_exec_and_report_error W (swapon_argv device priority))
    | LegacySwapSpace =>
        commands (fst (bd_swap_swapon W device priority)) = []
        /\ snd (bd_swap_swapon W device priority)
           = Returned (false, Some "Old swap format, cannot activate.")
    | SuspendedImageV1 | SuspendedImageV2 =>
        commands (fst (bd_swap_swapon W device priority)) = []
        /\ snd (bd_swap_swapon W device priority)
           = Returned (false, Some "Suspended system on the swap device, cannot activate.")
    | Unknown =>
        commands (fst (bd_swap_swapon W device priority)) = []
        /\ snd (bd_swap_swapon W device priority)
           = Returned (false, Some "Unknown swap space format, cannot activate.")
    end.
Proof.
  intros signature Hprobe.
  destruct (bd_swap_swapon_probed W device signature priority Hprobe) as [ch ->].
  destruct (classify signature); split; reflexivity.
Qed.

(** The only ten bytes classified as activatable. *)
Lemma activatable_signature (signature : string) :
  String.length signature = 10%nat ->
  classify signature = ActivatableSwapSpaceV2 ->
  signature = "SWAPSPACE2".
Proof.
  intros Hlen. unfold classify.
  destruct (starts_with "SWAP-SPACE" signature); [discriminate|].
  destruct (starts_with "S1SUSPEND" signature); [discriminate|].
  destruct (starts_with "S2SUSPEND" signature); [discriminate|].
  destruct (starts_with "SWAPSPACE2" signature) eqn:H; [|discriminate].
  intros _. symmetry. apply prefix_same_length; [rewrite Hlen; reflexivity | exact H].
Qed.

(** X2. A command is issued only after a successful probe that read the ten
    bytes "SWAPSPACE2". *)
Theorem bd_swap_swapon_command_needs_signature :
  commands (fst (bd_swap_swapon W device priority)) <> [] ->
  probe W device = Some "SWAPSPACE2".
Proof.
  unfold bd_swap_swapon. run_cases; intros H; try contradiction;
    repeat match goal with
      | Hs : negb (GIOStatus_eqb ?g _) = false |- _ =>
          destruct g; try discriminate Hs; clear Hs
      | Ho : _ || _ = false |- _ => apply orb_false_iff in Ho; destruct Ho
      | Hl : negb (_ =? _) = false |- _ => apply negb_false_iff, Z.eqb_eq in Hl
      | Hc : check_dev_status _ = None |- _ => rewrite check_dev_status_classify in Hc
      end;
    match goal with
    | Hopen : g_io_channel_new_file W device = (Some ?ch, ?s1),
      Hseek : g_io_channel_seek_position W _ _ = (_, ?s2),
      Hread : g_io_channel_read_chars W _ _ _ = (_, ?read, ?s3),
      Hlen : Z.of_nat (String.length ?read) = 10,
      Hc : refusal (classify ?read) = None |- _ =>
        assert (Hten : String.length read = 10%nat) by lia;
        assert (Hclass : classify read = ActivatableSwapSpaceV2)
          by (destruct (classify read); simpl in Hc; congruence);
        rewrite <- (activatable_signature read Hten Hclass);
        apply probe_calls;
        exists ch, s1, s2, s3; repeat split; assumption
    end.
Qed.

End Gate.

(** ** I/O failures of the probe *)

(** Closes the case of a read that is normal and complete although it was
    assumed not to be. *)
Ltac not_a_failure :=
  exfalso;
  repeat match goal with
    | H : (_ =? _) = true |- _ => apply Z.eqb_eq in H
    | H : _ \/ _ |- _ => destruct H
    end;
  solve [congruence | lia].

Section ProbeFailures.

Variable W : World.
Variable device : string.
Variable priority : Z.

(** X3. A failure of the open, the seek or the read that GLib reports with a
    [GError] ends the call with FALSE and that error's message, after the
    calls listed: no command is among them. *)
Theorem bd_swap_swapon_reported_failures :
  (forall e : GError,
      g_io_channel_new_file W device = (None, Some e) ->
      bd_swap_swapon W device priority
      = ([EvOpen device], Returned (false, Some (message e))))
  /\ (forall (ch : GIOChannel) (s1 : option GError) (status : GIOStatus) (e : GError),
         g_io_channel_new_file W device = (Some ch, s1) ->
         g_io_channel_seek_position W ch (probe_position W) = (status, Some e) ->
         status <> G_IO_STATUS_NORMAL ->
         bd_swap_swapon W device priority
         = ([EvOpen device; EvSeek ch (probe_position W); EvShutdown ch],
            Returned (false, Some ("Failed to determine device's state: " ++ message e)%string)))
  /\ (forall (ch : GIOChannel) (s1 s2 : option GError) (status : GIOStatus)
             (read : string) (e : GError),
         g_io_channel_new_file W device = (Some ch, s1) ->
         g_io_channel_seek_position W ch (probe_position W) = (G_IO_STATUS_NORMAL, s2) ->
         g_io_channel_read_chars W ch (probe_position W) 10 = (status, read, Some e) ->
         status <> G_IO_STATUS_NORMAL \/ String.length read <> 10%nat ->
         bd_swap_swapon W device priority
         = ([EvOpen device; EvSeek ch (probe_position W); EvRead ch 10; EvShutdown ch],
            Returned (false, Some ("Failed to determine device's state: " ++ message e)%string))).
Proof.
  unfold bd_swap_swapon, probe_position. repeat split.
  - intros e ->. reflexivity.
  - intros ch s1 status e -> Hseek Hst. cbv zeta. run_simpl. unfold bind at 1. run_simpl.
    rewrite Hseek. destruct status; try contradiction; reflexivity.
  - intros ch s1 s2 status read e -> Hseek Hread Hbad.
    cbv zeta. unfold bind at 1. run_simpl. rewrite Hseek.
    unfold bind at 1. run_simpl. rewrite Hread.
    destruct status; run_cases; try reflexivity; not_a_failure.
Qed.

(** X4. A read that falls short or does not end normally, while no call has
    stored a [GError], leaves [error] NULL: [error->message] on line 104 is
    then read through a NULL pointer, before any message is built. *)
Theorem bd_swap_swapon_unreported_read_failure :
  forall (ch : GIOChannel) (status : GIOStatus) (read : string),
    g_io_channel_new_file W device = (Some ch, None) ->
    g_io_channel_seek_position W ch (probe_position W) = (G_IO_STATUS_NORMAL, None) ->
    g_io_channel_read_chars W ch (probe_position W) 10 = (status, read, None) ->
    status <> G_IO_STATUS_NORMAL \/ String.length read <> 10%nat ->
    bd_swap_swapon W device priority
    = ([EvOpen device; EvSeek ch (probe_position W); EvRead ch 10], Fault).
Proof.
  unfold bd_swap_swapon, probe_position.
  intros ch status read -> Hseek Hread Hbad.
  cbv zeta. unfold bind at 1. run_simpl. rewrite Hseek.
  unfold bind at 1. run_simpl. rewrite Hread.
  destruct status; run_cases; try reflexivity; not_a_failure.
Qed.

End ProbeFailures.

(** C1, where the code departs from it.  On a device of 4090 bytes (page
    size 4096) the read at 4086 stores 4 bytes, ends normally and sets no
    error; on a device that ends before 4086 it is at end of file and sets no
    error either.  In both cases [bd_swap_swapon] reaches [error->message]
    with [error == NULL]: it returns no failure and no message. *)
Theorem bd_swap_swapon_short_read :
  bd_swap_swapon short_device_world "/dev/sdb1" (-1)
  = ([EvOpen "/dev/sdb1";
      EvSeek {| channel_file := "/dev/sdb1" |} 4086;
      EvRead {| channel_file := "/dev/sdb1" |} 10],
     Fault)
  /\ bd_swap_swapon ended_device_world "/dev/sdb1" (-1)
     = ([EvOpen "/dev/sdb1";
         EvSeek {| channel_file := "/dev/sdb1" |} 4086;
         EvRead {| channel_file := "/dev/sdb1" |} 10],
        Fault).
Proof.
  split; reflexivity.
Qed.

Lemma bd_swap_swapon_gate_witness :
  commands (fst (bd_swap_swapon swap_device_world "/dev/sda2" 5))
  = [["swapon"; "-p"; "5"; "/dev/sda2"]]
  /\ snd (bd_swap_swapon swap_device_world "/dev/sda2" 5) = Returned (true, None).
Proof.
  exact (bd_swap_swapon_gate swap_device_world "/dev/sda2" 5 "SWAPSPACE2" eq_refl).
Defined.

Lemma bd_swap_swapon_command_needs_signature_witness :
  probe swap_device_world "/dev/sda2" = Some "SWAPSPACE2".
Proof.
  apply (bd_swap_swapon_command_needs_signature swap_device_world "/dev/sda2" 5).
  discriminate.
Defined.

Lemma bd_swap_swapon_reported_failures_witness :
  bd_swap_swapon
    (make_world 4096 (G_IO_STATUS_ERROR, "", Some {| message := "Input/output error" |})
       no_registry no_link)
    "/dev/sda2" 5
  = ([EvOpen "/dev/sda2";
      EvSeek {| channel_file := "/dev/sda2" |} 4086;
      EvRead {| channel_file := "/dev/sda2" |} 10;
      EvShutdown {| channel_file := "/dev/sda2" |}],
     Returned (false, Some "Failed to determine device's state: Input/output error")).
Proof.
  apply (proj2 (proj2 (bd_swap_swapon_reported_failures
                         (make_world 4096
                            (G_IO_STATUS_ERROR, "", Some {| message := "Input/output error" |})
                            no_registry no_link)
                         "/dev/sda2" 5))
           {| channel_file := "/dev/sda2" |} None None G_IO_STATUS_ERROR ""
           {| message := "Input/output error" |} eq_refl eq_refl eq_refl).
  left. discriminate.
Defined.

Lemma bd_swap_swapon_unreported_read_failure_witness :
  bd_swap_swapon short_device_world "/dev/sdb1" 5
  = ([EvOpen "/dev/sdb1";
      EvSeek {| channel_file := "/dev/sdb1" |} 4086;
      EvRead {| channel_file := "/dev/sdb1" |} 10],
     Fault).
Proof.
  apply (bd_swap_swapon_unreported_read_failure short_device_world "/dev/sdb1" 5
           {| channel_file := "/dev/sdb1" |} G_IO_STATUS_NORMAL "SWAP"
           eq_refl eq_refl eq_refl).
  right. discriminate.
Defined.

(** ** Status: resolution *)

Section Resolution.

Variable W : World.

(** [bd_swap_swapstatus] is: read the registry, resolve, scan. *)
Lemma bd_swap_swapstatus_resolved (fuel : nat) (device : string) (buf : Buffer)
    (stored : option GError) (t : list event) (path : string) :
  g_file_get_contents W "/proc/swaps" = (Some buf, stored) ->
  resolve W (store None stored) device = (t, Returned (inr path)) ->
  bd_swap_swapstatus W fuel device
  = (EvGetContents "/proc/swaps" :: t,
     if g_str_has_prefix (string_at buf (addr buf)) path then Returned (true, None)
     else match scan_lines fuel buf path (after_newline buf (addr buf)) with
          | Some found => Returned (found, None)
          | None => OutOfFuel
          end).
Proof.
  intros Hreg Hres. unfold bd_swap_swapstatus, resolve in *. rewrite Hreg.
  unfold bind at 1. run_simpl.
  unfold bind in Hres |- *.
  destruct (device_mapper_step W (store None stored) device) as [t' [[early|real]| |]];
    run_simpl; try discriminate Hres.
  injection Hres as <- <-. rewrite app_nil_r.
  destruct (g_str_has_prefix (string_at buf (addr buf)) (real_or_device real device)).
  - rewrite app_nil_r. reflexivity.
  - destruct (scan_lines fuel buf _ _); rewrite app_nil_r; reflexivity.
Qed.

(** The early return of the resolution is the return of the function. *)
Lemma bd_swap_swapstatus_early (fuel : nat) (device : string) (buf : Buffer)
    (stored : option GError) (t : list event) (early : bool * option string) :
  g_file_get_contents W "/proc/swaps" = (Some buf, stored) ->
  resolve W (store None stored) device = (t, Returned (inl early)) ->
  bd_swap_swapstatus W fuel device = (EvGetContents "/proc/swaps" :: t, Returned early).
Proof.
  intros Hreg Hres. unfold bd_swap_swapstatus, resolve in *. rewrite Hreg.
  unfold bind at 1. run_simpl.
  unfold bind in Hres |- *.
  destruct (device_mapper_step W (store None stored) device) as [t' [[early'|real]| |]];
    run_simpl; try discriminate Hres.
  injection Hres as <- <-. rewrite !app_nil_r. reflexivity.
Qed.

End Resolution.

(** C6, as the code has it.  A path that starts with "/dev/mapper" and
    whose link target is "../name" resolves to "/dev/name", whether or not
    it is in the directory /dev/mapper; a path that does not start with
    "/dev/mapper" resolves to itself, with no call made; when the link of a
    path that starts with "/dev/mapper" cannot be read, no path comes out,
    and the error GLib stored becomes the message of the early return. *)
Theorem resolve_device_mapper :
  forall (W : World) (error : option GError) (device : string),
    (g_str_has_prefix device "/dev/mapper" = true ->
     forall (name : string) (stored : option GError),
       g_file_read_link W device = (Some ("../" ++ name)%string, stored) ->
       resolve W error device
       = ([EvReadLink device], Returned (inr ("/dev/" ++ name)%string)))
    /\ (g_str_has_prefix device "/dev/mapper" = false ->
        resolve W error device = ([], Returned (inr device)))
    /\ (g_str_has_prefix device "/dev/mapper" = true ->
        forall stored : option GError,
          g_file_read_link W device = (None, stored) ->
          (forall path : string, snd (resolve W error device) <> Returned (inr path))
          /\ (forall e : GError,
                 stored = Some e ->
                 resolve W error device
                 = ([EvReadLink device], Returned (inl (false, Some (message e)))))).
Proof.
  intros W error device. unfold resolve, device_mapper_step.
  split; [|split].
  - intros -> name stored ->. reflexivity.
  - intros ->. reflexivity.
  - intros -> stored ->. split.
    + intros path. destruct error, stored; discriminate.
    + intros e ->. reflexivity.
Qed.

Lemma resolve_device_mapper_witness :
  resolve (registry_world dm2_registry (Some "../dm-2", None)) None "/dev/mapper/vg-lv"
  = ([EvReadLink "/dev/mapper/vg-lv"], Returned (inr "/dev/dm-2"))
  /\ resolve (registry_world dm2_registry no_link) None "/dev/sda1"
     = ([], Returned (inr "/dev/sda1"))
  /\ resolve (registry_world dm2_registry no_link) None "/dev/mapper/vg-lv"
     = ([EvReadLink "/dev/mapper/vg-lv"],
        Returned (inl (false, Some "Failed to read the symbolic link"))).
Proof.
  split; [|split].
  - apply (proj1 (resolve_device_mapper
                    (registry_world dm2_registry (Some "../dm-2", None)) None
                    "/dev/mapper/vg-lv") eq_refl "dm-2" None eq_refl).
  - apply (proj1 (proj2 (resolve_device_mapper
                           (registry_world dm2_registry no_link) None "/dev/sda1")) eq_refl).
  - apply (proj2 (proj2 (proj2 (resolve_device_mapper
                                   (registry_world dm2_registry no_link) None
                                   "/dev/mapper/vg-lv")) eq_refl _ eq_refl)
             {| message := "Failed to read the symbolic link" |} eq_refl).
Defined.

(** The step of line 190 on a link that was read. *)
Lemma resolve_link_read (W : World) (error : option GError) (device target : string)
    (stored : option GError) :
  g_str_has_prefix device "/dev/mapper" = true ->
  g_file_read_link W device = (Some target, stored) ->
  resolve W error device
  = ([EvReadLink device], Returned (inr ("/dev/" ++ after_three W device target)%string)).
Proof.
  intros Hpre Hlink. unfold resolve, device_mapper_step. rewrite Hpre, Hlink.
  reflexivity.
Qed.

(** C10, as the code has it.  For every path that starts with "/dev/mapper"
    and whose link is read, the resolved path is "/dev/" followed by the C
    string at [symlink + 3], whatever the link target is: never the path
    itself, never an error.  For a target of at least three characters that
    is the target without its first three characters, whether or not these
    are "../": the target "dm-2" gives "/dev/2".  For a shorter target the
    three bytes end past its terminator, and what follows there in the link
    buffer is read. *)
Theorem resolve_drops_three :
  forall (W : World) (error : option GError) (device target : string)
         (stored : option GError),
    g_str_has_prefix device "/dev/mapper" = true ->
    g_file_read_link W device = (Some target, stored) ->
    ((3 <= String.length target)%nat ->
     resolve W error device
     = ([EvReadLink device], Returned (inr ("/dev/" ++ drop 3 target)%string)))
    /\ ((String.length target < 3)%nat ->
        resolve W error device
        = ([EvReadLink device],
           Returned (inr ("/dev/" ++ cstring (drop (2 - String.length target)
                                                (g_file_read_link_rest W device)))%string))).
Proof.
  intros W error device target stored Hpre Hlink.
  rewrite (resolve_link_read W error device target stored Hpre Hlink).
  unfold after_three, offset. split; intros Hlen.
  - apply Nat.leb_le in Hlen. rewrite Hlen. reflexivity.
  - apply Nat.leb_gt in Hlen. rewrite Hlen. reflexivity.
Qed.

Lemma resolve_drops_three_witness :
  resolve (registry_world dm2_registry (Some "dm-2", None)) None "/dev/mapper/vg-lv"
  = ([EvReadLink "/dev/mapper/vg-lv"], Returned (inr "/dev/2"))
  /\ resolve (with_link_rest (registry_world dm2_registry (Some "ab", None)) "cd") None
       "/dev/mapper/vg-lv"
     = ([EvReadLink "/dev/mapper/vg-lv"], Returned (inr "/dev/cd")).
Proof.
  assert (Hlong : (3 <= String.length "dm-2")%nat) by (simpl; lia).
  assert (Hshort : (String.length "ab" < 3)%nat) by (simpl; lia).
  split.
  - exact (proj1 (resolve_drops_three (registry_world dm2_registry (Some "dm-2", None)) None
                    "/dev/mapper/vg-lv" "dm-2" None eq_refl eq_refl) Hlong).
  - exact (proj2 (resolve_drops_three
                    (with_link_rest (registry_world dm2_registry (Some "ab", None)) "cd") None
                    "/dev/mapper/vg-lv" "ab" None eq_refl eq_refl) Hshort).
Defined.

(** C10, as stated, fails twice.  On its own example: three characters of
    "dm-2" are skipped, and "/dev/2" comes out, not "/dev/-2".  And on a
    target of two characters the three bytes end past the terminator: with
    "cd" lying there in the link buffer, "/dev/cd" comes out, not "/dev/"
    followed by what is left of the target. *)
Lemma resolve_not_as_stated :
  (resolve (registry_world dm2_registry (Some "dm-2", None)) None "/dev/mapper/vg-lv"
   = ([EvReadLink "/dev/mapper/vg-lv"], Returned (inr "/dev/2"))
   /\ resolve (registry_world dm2_registry (Some "dm-2", None)) None "/dev/mapper/vg-lv"
      <> ([EvReadLink "/dev/mapper/vg-lv"], Returned (inr "/dev/-2")))
  /\ (resolve (with_link_rest (registry_world dm2_registry (Some "ab", None)) "cd") None
        "/dev/mapper/vg-lv"
      = ([EvReadLink "/dev/mapper/vg-lv"], Returned (inr "/dev/cd"))
      /\ resolve (with_link_rest (registry_world dm2_registry (Some "ab", None)) "cd") None
           "/dev/mapper/vg-lv"
         <> ([EvReadLink "/dev/mapper/vg-lv"],
             Returned (inr ("/dev/" ++ drop 3 "ab")%string))).
Proof.
  split; (split; [reflexivity | discriminate]).
Qed.

(** C6, as stated, fails on its "every other path": "/dev/mapperfoo" is not
    in the directory /dev/mapper, and a link target "dm-2" is no "../name",
    yet neither path is returned unchanged: line 181 tests the string prefix
    only, and line 190 skips three characters whatever they are. *)
Lemma resolve_rewrites_other_paths :
  (String.prefix "/dev/mapper/" "/dev/mapperfoo" = false
   /\ resolve (registry_world dm2_registry (Some "../dm-2", None)) None "/dev/mapperfoo"
      = ([EvReadLink "/dev/mapperfoo"], Returned (inr "/dev/dm-2"))
   /\ resolve (registry_world dm2_registry (Some "../dm-2", None)) None "/dev/mapperfoo"
      <> ([], Returned (inr "/dev/mapperfoo")))
  /\ (String.prefix "/dev/mapper/" "/dev/mapper/vg-lv" = true
      /\ String.prefix "../" "dm-2" = false
      /\ resolve (registry_world dm2_registry (Some "dm-2", None)) None "/dev/mapper/vg-lv"
         = ([EvReadLink "/dev/mapper/vg-lv"], Returned (inr "/dev/2"))).
Proof.
  split; [split; [reflexivity | split; [reflexivity | discriminate]]|].
  split; [reflexivity | split; reflexivity].
Qed.

(** ** Status: the alias test *)

Lemma device_mapper_step_trace (W : World) (error : option GError) (device : string) :
  fst (device_mapper_step W error device)
  = if g_str_has_prefix device "/dev/mapper" then [EvReadLink device] else [].
Proof.
  unfold device_mapper_step.
  destruct (g_str_has_prefix device "/dev/mapper"); [|reflexivity].
  run_cases; reflexivity.
Qed.

Lemma bd_swap_swapstatus_trace (W : World) (fuel : nat) (device : string) :
  fst (bd_swap_swapstatus W fuel device)
  = EvGetContents "/proc/swaps"
    :: match fst (g_file_get_contents W "/proc/swaps") with
       | Some _ => if g_str_has_prefix device "/dev/mapper" then [EvReadLink device] else []
       | None => []
       end.
Proof.
  unfold bd_swap_swapstatus.
  destruct (g_file_get_contents W "/proc/swaps") as [[buf|] stored].
  - unfold bind at 1. run_simpl. f_equal.
    unfold bind at 1.
    pose proof (device_mapper_step_trace W (store None stored) device) as Ht.
    destruct (device_mapper_step W (store None stored) device) as [t [[early|real]| |]];
      run_simpl; rewrite Ht; try reflexivity; try apply app_nil_r.
    destruct (g_str_has_prefix (string_at buf (addr buf)) (real_or_device real device));
      [apply app_nil_r|].
    destruct (scan_lines fuel buf _ _); apply app_nil_r.
  - run_cases; reflexivity.
Qed.

(** C9, as the code has it.  The alias test of [bd_swap_swapstatus] is the
    string-prefix test against "/dev/mapper" and nothing more.  No link is
    ever read for a path that does not start with "/dev/mapper".  Once the
    registry is read, every path that starts with it -- "/dev/mapperfoo"
    too, which is not in the directory /dev/mapper -- has its link read, and
    the registry is then scanned for "/dev/" followed by the link target
    past its first three bytes; when the link cannot be read, the call ends
    there, with no answer about the registry.  For a path that does not
    start with "/dev/mapper" the registry is scanned for the path itself. *)
Theorem bd_swap_swapstatus_alias_test :
  forall (W : World) (fuel : nat) (device : string),
    (String.prefix "/dev/mapper" device = false ->
     forall file : string,
       ~ In (EvReadLink file) (fst (bd_swap_swapstatus W fuel device)))
    /\ (forall (buf : Buffer) (stored : option GError),
           g_file_get_contents W "/proc/swaps" = (Some buf, stored) ->
           (String.prefix "/dev/mapper" device = true ->
            (forall (target : string) (stored' : option GError),
                g_file_read_link W device = (Some target, stored') ->
                bd_swap_swapstatus W fuel device
                = ([EvGetContents "/proc/swaps"; EvReadLink device],
                   registry_scan fuel buf ("/dev/" ++ after_three W device target)%string))
            /\ (forall stored' : option GError,
                   g_file_read_link W device = (None, stored') ->
                   fst (bd_swap_swapstatus W fuel device)
                   = [EvGetContents "/proc/swaps"; EvReadLink device]
                   /\ forall active : bool,
                        snd (bd_swap_swapstatus W fuel device) <> Returned (active, None)))
           /\ (String.prefix "/dev/mapper" device = false ->
               bd_swap_swapstatus W fuel device
               = ([EvGetContents "/proc/swaps"], registry_scan fuel buf device))).
Proof.
  intros W fuel device. split.
  - intros Hpre file. rewrite bd_swap_swapstatus_trace.
    unfold g_str_has_prefix. rewrite Hpre.
    destruct (fst (g_file_get_contents W "/proc/swaps")); simpl;
      intros [H|H]; try discriminate H; contradiction.
  - intros buf stored Hreg. split; [intros Hpre; split|intros Hpre].
    + intros target stored' Hlink.
      apply (bd_swap_swapstatus_resolved W fuel device buf stored); [exact Hreg|].
      apply (resolve_link_read W _ device target stored'); assumption.
    + intros stored' Hlink. split.
      * rewrite bd_swap_swapstatus_trace, Hreg. unfold g_str_has_prefix.
        rewrite Hpre. reflexivity.
      * intros active. unfold bd_swap_swapstatus, device_mapper_step, g_str_has_prefix.
        rewrite Hreg, Hpre, Hlink. run_cases; discriminate.
    + apply (bd_swap_swapstatus_resolved W fuel device buf stored); [exact Hreg|].
      unfold resolve, device_mapper_step, g_str_has_prefix. rewrite Hpre. reflexivity.
Qed.

(** In a registry that lists /dev/dm-2, the path "/dev/mapperfoo" linked to
    "../dm-2" is answered TRUE: the link is read and used.  "/dev/sda1" is
    looked for as it is, and is not there. *)
Lemma bd_swap_swapstatus_alias_test_witness :
  bd_swap_swapstatus (registry_world dm2_registry (Some "../dm-2", None)) 100 "/dev/mapperfoo"
  = ([EvGetContents "/proc/swaps"; EvReadLink "/dev/mapperfoo"], Returned (true, None))
  /\ bd_swap_swapstatus (registry_world dm2_registry (Some "../dm-2", None)) 100 "/dev/sda1"
     = ([EvGetContents "/proc/swaps"], Returned (false, None)).
Proof.
  split.
  - exact (proj1 (proj1 (proj2 (bd_swap_swapstatus_alias_test
                                  (registry_world dm2_registry (Some "../dm-2", None)) 100
                                  "/dev/mapperfoo")
                           {| addr := 4096; bytes := dm2_registry |} None eq_refl) eq_refl)
             "../dm-2" None eq_refl).
  - exact (proj2 (proj2 (bd_swap_swapstatus_alias_test
                           (registry_world dm2_registry (Some "../dm-2", None)) 100
                           "/dev/sda1")
                    {| addr := 4096; bytes := dm2_registry |} None eq_refl) eq_refl).
Defined.

(** C9, as stated, fails when the registry cannot be read: the call returns
    on line 176, before the test of line 181, and the link of
    "/dev/mapper/vg-lv" -- a path that starts with "/dev/mapper" and whose
    link could be read -- is never read. *)
Lemma bd_swap_swapstatus_unread_registry :
  String.prefix "/dev/mapper" "/dev/mapper/vg-lv" = true
  /\ g_file_read_link unread_registry_world "/dev/mapper/vg-lv" = (Some "../dm-2", None)
  /\ bd_swap_swapstatus unread_registry_world 100 "/dev/mapper/vg-lv"
     = ([EvGetContents "/proc/swaps"],
        Returned (false, Some "Failed to open file /proc/swaps"))
  /\ ~ In (EvReadLink "/dev/mapper/vg-lv")
         (fst (bd_swap_swapstatus unread_registry_world 100 "/dev/mapper/vg-lv")).
Proof.
  split; [reflexivity | split; [reflexivity | split; [reflexivity|]]].
  intros [H|[]]. discriminate H.
Qed.

(** ** Status: failures *)

(** C2, as the code has it.  [bd_swap_swapstatus] returns with an error
    message only when the registry could not be read, or when the path starts
    with "/dev/mapper" and its link could not be read; it then returns FALSE.
    Both failures happen: each returns FALSE with the message of the error
    that GLib stored. *)
Theorem bd_swap_swapstatus_failures :
  forall (W : World) (fuel : nat) (device : string),
    (forall (t : list event) (active : bool) (msg : string),
        bd_swap_swapstatus W fuel device = (t, Returned (active, Some msg)) ->
        active = false
        /\ (fst (g_file_get_contents W "/proc/swaps") = None
            \/ (String.prefix "/dev/mapper" device = true
                /\ fst (g_file_read_link W device) = None)))
    /\ (forall e : GError,
           g_file_get_contents W "/proc/swaps" = (None, Some e) ->
           bd_swap_swapstatus W fuel device
           = ([EvGetContents "/proc/swaps"], Returned (false, Some (message e))))
    /\ (forall (buf : Buffer) (stored : option GError) (e : GError),
           g_file_get_contents W "/proc/swaps" = (Some buf, stored) ->
           String.prefix "/dev/mapper" device = true ->
           g_file_read_link W device = (None, Some e) ->
           bd_swap_swapstatus W fuel device
           = ([EvGetContents "/proc/swaps"; EvReadLink device],
              Returned (false, Some (message e)))).
Proof.
  intros W fuel device. split; [|split].
  - intros t active msg. unfold bd_swap_swapstatus, device_mapper_step, g_str_has_prefix.
    destruct (g_file_get_contents W "/proc/swaps") as [[buf|] stored].
    + destruct (String.prefix "/dev/mapper" device).
      * destruct (g_file_read_link W device) as [[target|] stored'].
        -- run_cases; intros H; discriminate H.
        -- run_cases; intros H; try discriminate H;
             injection H as _ <- _; (split; [reflexivity | right; split; reflexivity]).
      * run_cases; intros H; discriminate H.
    + run_cases; intros H; try discriminate H;
        injection H as _ <- _; (split; [reflexivity | left; reflexivity]).
  - intros e Hreg. unfold bd_swap_swapstatus. rewrite Hreg. reflexivity.
  - intros buf stored e Hreg Hpre Hlink.
    apply (bd_swap_swapstatus_early W fuel device buf stored); [exact Hreg|].
    unfold resolve, device_mapper_step, g_str_has_prefix. rewrite Hpre, Hlink.
    reflexivity.
Qed.

Lemma bd_swap_swapstatus_failures_witness :
  bd_swap_swapstatus (registry_world dm2_registry no_link) 100 "/dev/mapper/vg-lv"
  = ([EvGetContents "/proc/swaps"; EvReadLink "/dev/mapper/vg-lv"],
     Returned (false, Some "Failed to read the symbolic link"))
  /\ (fst (g_file_get_contents (registry_world dm2_registry no_link) "/proc/swaps") = None
      \/ (String.prefix "/dev/mapper" "/dev/mapper/vg-lv" = true
          /\ fst (g_file_read_link (registry_world dm2_registry no_link) "/dev/mapper/vg-lv")
             = None)).
Proof.
  pose proof (bd_swap_swapstatus_failures (registry_world dm2_registry no_link) 100
                "/dev/mapper/vg-lv") as (Honly & _ & Hlink).
  assert (Hrun := Hlink {| addr := 4096; bytes := dm2_registry |} None
                    {| message := "Failed to read the symbolic link" |}
                    eq_refl eq_refl eq_refl).
  split; [exact Hrun | exact (proj2 (Honly _ _ _ Hrun))].
Defined.

(** C2, as stated, fails: the registry is read, the link of
    "/dev/mapper/vg-lv" cannot be read, and [bd_swap_swapstatus] returns FALSE
    with an error message. *)
Lemma bd_swap_swapstatus_link_failure :
  fst (g_file_get_contents (registry_world dm2_registry no_link) "/proc/swaps") <> None
  /\ bd_swap_swapstatus (registry_world dm2_registry no_link) 100 "/dev/mapper/vg-lv"
     = ([EvGetContents "/proc/swaps"; EvReadLink "/dev/mapper/vg-lv"],
        Returned (false, Some "Failed to read the symbolic link")).
Proof.
  split; [discriminate | reflexivity].
Qed.

(** ** Status: the scan *)

Section ScanResult.

Variable buf : Buffer.
Variable path : string.

Hypothesis buf_in_memory : in_memory buf.
Hypothesis path_one_line : free_of LF path = true.

(** The test of the first line and the loop, together. *)
Lemma first_line_and_loop (fuel : nat) :
  (String.length (bytes buf) < fuel)%nat ->
  (if g_str_has_prefix (string_at buf (addr buf)) path then Some true
   else scan_lines fuel buf path (after_newline buf (addr buf)))
  = Some (existsb (starts_with path) (lines (cstring (bytes buf)))).
Proof.
  intros Hfuel.
  destruct path as [|c rest] eqn:Hpath.
  - unfold g_str_has_prefix. rewrite prefix_empty.
    destruct (lines (cstring (bytes buf))) as [|l ls] eqn:Hl.
    + exfalso. exact (lines_nonempty _ Hl).
    + cbn [existsb]. unfold starts_with at 1. rewrite prefix_empty. reflexivity.
  - rewrite <- Hpath in *.
    assert (Hne : path <> EmptyString) by (rewrite Hpath; discriminate).
    assert (Hnext : forall k' : nat,
               (0 < k')%nat -> (k' <= String.length (cstring (bytes buf)))%nat ->
               scan_lines fuel buf path (addr buf + Z.of_nat k')
               = Some (existsb (starts_with path) (lines (drop k' (cstring (bytes buf)))))).
    { intros k' Hk' Hle.
      apply (scan_lines_spec buf path buf_in_memory path_one_line Hne); [exact Hle | lia]. }
    pose proof (test_and_advance buf path buf_in_memory path_one_line fuel 0
                  (Nat.le_0_l _) ltac:(lia) Hnext) as Hstep.
    pose proof (string_at_inside buf buf_in_memory 0 (Nat.le_0_l _)) as Hat.
    change (Z.of_nat 0) with 0 in Hstep, Hat. rewrite Z.add_0_r in Hstep, Hat.
    rewrite Hat. exact Hstep.
Qed.

End ScanResult.

(** C3, as the code has it.  Let the registry be read into a buffer that
    lies in memory, and let the resolution give a path without line feed.
    Then, with fuel for every byte of the buffer, [bd_swap_swapstatus]
    returns without error, and returns TRUE exactly when some line of the
    registry text -- the first, header, line included -- starts with the
    resolved path.  (The text is what C reads in the buffer: the bytes before
    the first NUL, all of them in a text file.) *)
Theorem bd_swap_swapstatus_scan :
  forall (W : World) (fuel : nat) (device : string) (buf : Buffer)
         (stored : option GError) (t : list event) (path : string),
    g_file_get_contents W "/proc/swaps" = (Some buf, stored) ->
    resolve W (store None stored) device = (t, Returned (inr path)) ->
    in_memory buf ->
    free_of LF path = true ->
    (String.length (bytes buf) < fuel)%nat ->
    exists active : bool,
      bd_swap_swapstatus W fuel device
      = (EvGetContents "/proc/swaps" :: t, Returned (active, None))
      /\ (active = true <->
          exists l : string,
            In l (lines (cstring (bytes buf))) /\ starts_with path l = true).
Proof.
  intros W fuel device buf stored t path Hreg Hres Hmem Hline Hfuel.
  exists (existsb (starts_with path) (lines (cstring (bytes buf)))).
  split; [|apply existsb_exists].
  rewrite (bd_swap_swapstatus_resolved W fuel device buf stored t path Hreg Hres).
  pose proof (first_line_and_loop buf path Hmem Hline fuel Hfuel) as Hscan.
  destruct (g_str_has_prefix (string_at buf (addr buf)) path).
  - injection Hscan as <-. reflexivity.
  - rewrite Hscan. reflexivity.
Qed.

(** A path that is a strict prefix of the path of an active device is
    reported active: "/dev/sda1" while "/dev/sda12" is in the registry. *)
Lemma bd_swap_swapstatus_scan_witness :
  bd_swap_swapstatus (registry_world sda12_registry no_link) 100 "/dev/sda1"
  = ([EvGetContents "/proc/swaps"], Returned (true, None))
  /\ exists l : string,
       In l (lines (cstring sda12_registry)) /\ starts_with "/dev/sda1" l = true.
Proof.
  assert (Hmem : in_memory {| addr := 4096; bytes := sda12_registry |})
    by (unfold in_memory; simpl; lia).
  assert (Hfuel : (String.length sda12_registry < 100)%nat) by (simpl; lia).
  destruct (bd_swap_swapstatus_scan (registry_world sda12_registry no_link) 100 "/dev/sda1"
              {| addr := 4096; bytes := sda12_registry |} None [] "/dev/sda1"
              eq_refl eq_refl Hmem eq_refl Hfuel) as (active & Hrun & Hiff).
  assert (Hactive : active = true).
  { vm_compute in Hrun. injection Hrun as <-. reflexivity. }
  subst active. split; [exact Hrun | apply Hiff; reflexivity].
Defined.

(** C3, as stated, fails on a path that holds a line feed: the registry
    "Filename", "/dev/sda", "x" has no line that starts with the path
    "/dev/sda<LF>x" -- no line holds a line feed -- and yet
    [bd_swap_swapstatus] returns TRUE, since the prefix test runs on from the
    start of the second line into the third. *)
Lemma bd_swap_swapstatus_across_lines :
  bd_swap_swapstatus
    (registry_world (line "Filename" (line "/dev/sda" "x")) no_link) 100
    (line "/dev/sda" "x")
  = ([EvGetContents "/proc/swaps"], Returned (true, None))
  /\ lines (line "Filename" (line "/dev/sda" "x")) = ["Filename"; "/dev/sda"; "x"]
  /\ forall l : string,
       In l (lines (line "Filename" (line "/dev/sda" "x"))) ->
       starts_with (line "/dev/sda" "x") l = false.
Proof.
  split; [reflexivity | split; [reflexivity|]].
  intros l [<-|[<-|[<-|[]]]]; reflexivity.
Qed.

(** ** Status: the loop ends, and nothing is changed *)

Section Termination.

Variable buf : Buffer.
Variable dev : string.

Hypothesis buf_in_memory : in_memory buf.

(** Entered at a position of the text, the loop ends within the fuel left
    for the rest of the buffer, whatever the path is. *)
Lemma scan_lines_ends (fuel k : nat) :
  (k <= String.length (cstring (bytes buf)))%nat ->
  (String.length (bytes buf) - k < fuel)%nat ->
  scan_lines fuel buf dev (addr buf + Z.of_nat k) <> None.
Proof.
  revert k. induction fuel as [|fuel IH]; intros k Hk Hfuel; [lia|].
  destruct buf_in_memory as [Hlow Hend].
  pose proof (text_length buf) as Ht.
  cbn [scan_lines].
  rewrite (index_of_inside buf buf_in_memory) by lia.
  replace (addr buf + Z.of_nat k =? 0) with false by (symmetry; apply Z.eqb_neq; lia).
  cbn [negb andb].
  destruct (Z.of_nat k <? Z.of_nat (String.length (bytes buf))) eqn:Hlt; [|discriminate].
  apply Z.ltb_lt in Hlt.
  destruct (g_str_has_prefix (string_at buf (addr buf + Z.of_nat k)) dev); [discriminate|].
  destruct (strchr (drop k (cstring (bytes buf))) LF) as [i|] eqn:Hi.
  - destruct (after_newline_found buf buf_in_memory k i Hk Hi) as [-> Hle].
    apply IH; lia.
  - rewrite (after_newline_missing buf buf_in_memory k Hk Hi).
    destruct fuel as [|fuel']; [lia|].
    rewrite (scan_lines_stops_at_one buf dev buf_in_memory). discriminate.
Qed.

Lemma scan_lines_from_start_ends (fuel : nat) :
  (String.length (bytes buf) < fuel)%nat ->
  scan_lines fuel buf dev (after_newline buf (addr buf)) <> None.
Proof.
  intros Hfuel.
  pose proof (after_newline_found buf buf_in_memory 0) as Hfound.
  pose proof (after_newline_missing buf buf_in_memory 0 (Nat.le_0_l _)) as Hmissing.
  change (Z.of_nat 0) with 0 in Hfound, Hmissing.
  rewrite Z.add_0_r in Hfound, Hmissing. cbn [drop] in Hfound, Hmissing.
  destruct (strchr (cstring (bytes buf)) LF) as [i|] eqn:Hi.
  - destruct (Hfound i (Nat.le_0_l _) eq_refl) as [-> Hle].
    apply scan_lines_ends; [exact Hle | lia].
  - rewrite (Hmissing eq_refl).
    destruct fuel as [|fuel']; [lia|].
    rewrite (scan_lines_stops_at_one buf dev buf_in_memory). discriminate.
Qed.

End Termination.

(** X5. With the registry in a buffer that lies in memory and fuel above the
    length of the buffer, [bd_swap_swapstatus] never runs out of fuel: the
    loop of lines 204-213 ends for every device path, those with a line feed
    included. *)
Theorem bd_swap_swapstatus_terminates :
  forall (W : World) (fuel : nat) (device : string) (buf : Buffer) (stored : option GError),
    g_file_get_contents W "/proc/swaps" = (Some buf, stored) ->
    in_memory buf ->
    (String.length (bytes buf) < fuel)%nat ->
    snd (bd_swap_swapstatus W fuel device) <> OutOfFuel.
Proof.
  intros W fuel device buf stored Hreg Hmem Hfuel.
  unfold bd_swap_swapstatus. rewrite Hreg.
  unfold bind at 1. run_simpl. unfold bind at 1.
  destruct (device_mapper_step W (store None stored) device) as [t [[early|real]| |]] eqn:Hstep;
    run_simpl; try discriminate.
  - destruct (g_str_has_prefix (string_at buf (addr buf)) (real_or_device real device));
      [discriminate|].
    pose proof (scan_lines_from_start_ends buf (real_or_device real device) Hmem fuel Hfuel).
    destruct (scan_lines fuel buf _ _); [discriminate | contradiction].
  - exfalso. unfold device_mapper_step in Hstep. revert Hstep. run_cases; discriminate.
Qed.

Lemma bd_swap_swapstatus_terminates_witness :
  snd (bd_swap_swapstatus (registry_world dm2_registry (Some "../dm-2", None)) 100
         "/dev/mapper/vg-lv")
  <> OutOfFuel.
Proof.
  apply (bd_swap_swapstatus_terminates (registry_world dm2_registry (Some "../dm-2", None))
           100 "/dev/mapper/vg-lv" {| addr := 4096; bytes := dm2_registry |} None eq_refl).
  - unfold in_memory. simpl. lia.
  - simpl. lia.
Defined.

(** X6. The events of a run of [bd_swap_swapstatus] are the read of
    /proc/swaps, followed by at most one read of a link, that of the device
    itself, and nothing else: no device is opened, sought or read, and no
    command is issued. *)
Theorem bd_swap_swapstatus_read_only :
  forall (W : World) (fuel : nat) (device : string),
    (fst (bd_swap_swapstatus W fuel device) = [EvGetContents "/proc/swaps"]
     \/ fst (bd_swap_swapstatus W fuel device)
        = [EvGetContents "/proc/swaps"; EvReadLink device])
    /\ commands (fst (bd_swap_swapstatus W fuel device)) = []
    /\ seeks (fst (bd_swap_swapstatus W fuel device)) = []
    /\ reads (fst (bd_swap_swapstatus W fuel device)) = [].
Proof.
  intros W fuel device. rewrite bd_swap_swapstatus_trace.
  destruct (fst (g_file_get_contents W "/proc/swaps"));
    [destruct (g_str_has_prefix device "/dev/mapper")|];
    (split; [auto | split; [reflexivity | split; reflexivity]]).
Qed.

(** ** Activation: what a run can be *)

Section ActivationRuns.

Variable W : World.
Variable device : string.

(** Without a successful probe no command is issued, and the call ends in a
    refusal with a message or at the NULL error. *)
Lemma bd_swap_swapon_unprobed (priority : Z) :
  probe W device = None ->
  commands (fst (bd_swap_swapon W device priority)) = []
  /\ (snd (bd_swap_swapon W device priority) = Fault
      \/ exists msg : string,
           snd (bd_swap_swapon W device priority) = Returned (false, Some msg)).
Proof.
  unfold probe, bd_swap_swapon, probe_position. cbv zeta.
  run_cases; intros Hprobe; try discriminate Hprobe;
    try (split; [reflexivity | eauto; fail]);
    exfalso;
    repeat match goal with
      | H : (_ =? _) = true |- _ => apply Z.eqb_eq in H
      | H : (_ =? _)%nat = false |- _ => apply Nat.eqb_neq in H
      end;
    lia.
Qed.

(** X7. [bd_swap_swapon] reports success only for a device whose probe read
    "SWAPSPACE2", and only with what the executor returned for the one
    command it issued: TRUE never comes from the plugin itself. *)
Theorem bd_swap_swapon_success :
  forall (priority : Z) (t : list event) (msg : option string),
    bd_swap_swapon W device priority = (t, Returned (true, msg)) ->
    probe W device = Some "SWAPSPACE2"
    /\ commands t = [swapon_argv device priority]
    /\ bd_utils_exec_and_report_error W (swapon_argv device priority) = (true, msg).
Proof.
  intros priority t msg Hrun.
  destruct (probe W device) as [signature|] eqn:Hprobe.
  - destruct (bd_swap_swapon_probed W device signature priority Hprobe) as [ch Hshape].
    rewrite Hrun in Hshape.
    destruct (proj1 (probe_calls W device signature) Hprobe)
      as (_ & _ & _ & _ & _ & _ & _ & Hlen).
    destruct (classify signature) eqn:Hclass; cbn [refusal] in Hshape;
      try discriminate Hshape.
    injection Hshape as -> Hexec.
    split; [f_equal; exact (activatable_signature signature Hlen Hclass)|].
    split; [reflexivity | symmetry; exact Hexec].
  - destruct (bd_swap_swapon_unprobed priority Hprobe) as [_ [Hfault|[m Hret]]];
      rewrite Hrun in *; discriminate.
Qed.

(** X8. A run of [bd_swap_swapon] that issues a command has exactly five
    events, in this order: the open, one seek, one read of 10 bytes, the
    shutdown call on the channel, and the command.  The command is the last
    event, after the shutdown call.  ([getpagesize], consulted between the
    open and the seek, is no event.) *)
Theorem bd_swap_swapon_command_run :
  forall priority : Z,
    commands (fst (bd_swap_swapon W device priority)) <> [] ->
    exists ch : GIOChannel,
      fst (g_io_channel_new_file W device) = Some ch
      /\ fst (bd_swap_swapon W device priority)
         = [EvOpen device; EvSeek ch (probe_position W); EvRead ch 10; EvShutdown ch;
            EvExec (swapon_argv device priority)].
Proof.
  intros priority Hcmd.
  destruct (probe W device) as [signature|] eqn:Hprobe.
  - destruct (proj1 (probe_calls W device signature) Hprobe)
      as (ch & s1 & s2 & s3 & Hopen & Hseek & Hread & Hlen).
    exists ch. rewrite Hopen. split; [reflexivity|].
    revert Hcmd. unfold bd_swap_swapon. unfold probe_position in Hseek, Hread |- *.
    rewrite Hopen. cbn [call bind ret app fst snd].
    rewrite Hseek. cbn [call bind ret app fst snd GIOStatus_eqb negb].
    rewrite Hread. cbn [call bind ret app fst snd GIOStatus_eqb negb orb].
    rewrite Hlen. cbn [Z.of_nat Pos.of_succ_nat Pos.succ Z.eqb Pos.eqb negb].
    rewrite check_dev_status_classify.
    destruct (refusal (classify signature)) as [msg|].
    + intros Hcmd. contradiction Hcmd. reflexivity.
    + intros _. unfold swapon_argv, exec_and_report_error.
      destruct (priority >=? 0); reflexivity.
  - destruct (bd_swap_swapon_unprobed priority Hprobe) as [Hnone _]. contradiction.
Qed.

(** X9. A refused or failed activation does not depend on the priority: when
    the call issues no command for one priority, it makes the same calls and
    ends the same way for every other. *)
Theorem bd_swap_swapon_priority_unused :
  forall priority priority' : Z,
    commands (fst (bd_swap_swapon W device priority)) = [] ->
    bd_swap_swapon W device priority' = bd_swap_swapon W device priority.
Proof.
  intros priority priority'. unfold bd_swap_swapon.
  destruct (g_io_channel_new_file W device) as [[ch|] s1]; [|reflexivity].
  set (position := gint_wrap _).
  destruct (g_io_channel_seek_position W ch position) as [status s2].
  destruct (g_io_channel_read_chars W ch position 10) as [[status' read] s3].
  destruct status, status'; run_cases; intros Hcmd;
    try reflexivity; discriminate Hcmd.
Qed.

(** X10. When GLib reports with a [GError] every failure of the calls that
    probe the device -- as it does when none of them fails --
    [bd_swap_swapon] always returns: it never reads [error->message] through
    a NULL pointer. *)
Theorem bd_swap_swapon_returns :
  forall priority : Z,
    probe_errors_reported W device ->
    exists r : bool * option string,
      snd (bd_swap_swapon W device priority) = Returned r.
Proof.
  intros priority Hreported. unfold bd_swap_swapon. cbv zeta.
  run_cases; eauto; exfalso;
    destruct Hreported as (Hopen & Hseek & Hread);
    unfold probe_position in Hseek, Hread;
    match goal with
    | Ho : g_io_channel_new_file W device = (None, None) |- _ =>
        exact (Hopen _ Ho eq_refl)
    | Ho : g_io_channel_new_file W device = (Some _, _),
      Hr : g_io_channel_read_chars W _ _ _ = (?g, _, None),
      Hb : _ || _ = true |- _ =>
        apply (Hread _ _ _ _ _ Ho Hr); [|reflexivity];
        destruct g; try (left; discriminate);
        right; simpl in Hb; apply negb_true_iff, Z.eqb_neq in Hb; lia
    | Ho : g_io_channel_new_file W device = (Some _, _),
      Hs : g_io_channel_seek_position W _ _ = (?g, None),
      Hb : negb _ = true |- _ =>
        apply (Hseek _ _ _ _ Ho Hs); [|reflexivity]; intros ->; discriminate Hb
    end.
Qed.

End ActivationRuns.

Lemma bd_swap_swapon_success_witness :
  probe swap_device_world "/dev/sda2" = Some "SWAPSPACE2"
  /\ commands (fst (bd_swap_swapon swap_device_world "/dev/sda2" 5))
     = [["swapon"; "-p"; "5"; "/dev/sda2"]]
  /\ bd_utils_exec_and_report_error swap_device_world ["swapon"; "-p"; "5"; "/dev/sda2"]
     = (true, None).
Proof.
  exact (bd_swap_swapon_success swap_device_world "/dev/sda2" 5 _ None eq_refl).
Defined.

Lemma bd_swap_swapon_command_run_witness :
  exists ch : GIOChannel,
    fst (g_io_channel_new_file swap_device_world "/dev/sda2") = Some ch
    /\ fst (bd_swap_swapon swap_device_world "/dev/sda2" (-1))
       = [EvOpen "/dev/sda2"; EvSeek ch 4086; EvRead ch 10; EvShutdown ch;
          EvExec ["swapon"; "/dev/sda2"]].
Proof.
  apply (bd_swap_swapon_command_run swap_device_world "/dev/sda2" (-1)).
  discriminate.
Defined.

Lemma bd_swap_swapon_priority_unused_witness :
  bd_swap_swapon legacy_device_world "/dev/sda2" 5
  = bd_swap_swapon legacy_device_world "/dev/sda2" (-1).
Proof.
  apply (bd_swap_swapon_priority_unused legacy_device_world "/dev/sda2" (-1) 5).
  reflexivity.
Defined.

Lemma failing_read_world_reports :
  probe_errors_reported failing_read_world "/dev/sda2".
Proof.
  split; [|split].
  - intros stored H. discriminate H.
  - intros ch s1 status stored _ H Hst. injection H as <- _. contradiction.
  - intros ch s1 status read stored _ H _. injection H as _ _ <-. discriminate.
Defined.

Lemma swap_device_world_reports :
  probe_errors_reported swap_device_world "/dev/sda2".
Proof.
  split; [|split].
  - intros stored H. discriminate H.
  - intros ch s1 status stored _ H Hst. injection H as <- _. contradiction.
  - intros ch s1 status read stored _ H [Hst|Hlen]; injection H as <- <- _.
    + contradiction.
    + contradiction Hlen. reflexivity.
Defined.

(** The call returns on a device whose read fails with an error, and on a
    device formatted as swap, where nothing fails. *)
Lemma bd_swap_swapon_returns_witness :
  (exists r : bool * option string,
      snd (bd_swap_swapon failing_read_world "/dev/sda2" 5) = Returned r)
  /\ (exists r : bool * option string,
         snd (bd_swap_swapon swap_device_world "/dev/sda2" 5) = Returned r).
Proof.
  split.
  - exact (bd_swap_swapon_returns failing_read_world "/dev/sda2" 5
             failing_read_world_reports).
  - exact (bd_swap_swapon_returns swap_device_world "/dev/sda2" 5
             swap_device_world_reports).
Defined.

(** ** Activation: the signatures *)

(** Takes the characters of a prefix off the string it is a prefix of. *)
Ltac peel_prefix H s :=
  unfold g_str_has_prefix in H;
  repeat (destruct s as [|? s]; [discriminate H|];
          rewrite prefix_cons in H;
          let Hc := fresh "Hc" in
          apply andb_true_iff in H as [Hc H];
          apply Ascii.eqb_eq in Hc; subst).

(** X11. The four signatures exclude one another, so the order of the tests
    of lines 112-118 decides nothing: a buffer that starts with "SWAPSPACE2"
    passes the check, one that starts with "S1SUSPEND" or "S2SUSPEND" gets
    the suspended-system refusal, and one that starts with "SWAP-SPACE" the
    old-format refusal. *)
Theorem check_dev_status_exclusive :
  forall dev_status : string,
    (g_str_has_prefix dev_status "SWAPSPACE2" = true ->
     check_dev_status dev_status = None)
    /\ (g_str_has_prefix dev_status "S1SUSPEND" = true ->
        check_dev_status dev_status
        = Some "Suspended system on the swap device, cannot activate.")
    /\ (g_str_has_prefix dev_status "S2SUSPEND" = true ->
        check_dev_status dev_status
        = Some "Suspended system on the swap device, cannot activate.")
    /\ (g_str_has_prefix dev_status "SWAP-SPACE" = true ->
        check_dev_status dev_status = Some "Old swap format, cannot activate.").
Proof.
  intros dev_status.
  split; [|split; [|split]]; intros H; peel_prefix H dev_status;
    unfold check_dev_status, g_str_has_prefix;
    rewrite !prefix_cons, ?prefix_empty; reflexivity.
Qed.

Lemma check_dev_status_exclusive_witness :
  check_dev_status "S2SUSPEND!"
  = Some "Suspended system on the swap device, cannot activate.".
Proof.
  exact (proj1 (proj2 (proj2 (check_dev_status_exclusive "S2SUSPEND!"))) eq_refl).
Defined.

(** ** Status: edge cases *)

Section StatusEdges.

Variable W : World.

(** X12. The empty device path is reported active whenever the registry can
    be read, whatever the registry holds: the empty string is a prefix of
    the buffer, and the first test already succeeds. *)
Theorem bd_swap_swapstatus_empty_path :
  forall (fuel : nat) (buf : Buffer) (stored : option GError),
    g_file_get_contents W "/proc/swaps" = (Some buf, stored) ->
    bd_swap_swapstatus W fuel EmptyString
    = ([EvGetContents "/proc/swaps"], Returned (true, None)).
Proof.
  intros fuel buf stored Hreg.
  rewrite (bd_swap_swapstatus_resolved W fuel EmptyString buf stored [] EmptyString Hreg eq_refl).
  unfold g_str_has_prefix. rewrite prefix_empty. reflexivity.
Qed.

(** X13. On an empty registry no path but the empty one is reported active:
    the first test fails, [strchr] finds no line feed, and the loop is left
    at once, wherever the buffer lies. *)
Theorem bd_swap_swapstatus_empty_registry :
  forall (fuel : nat) (device : string) (buf : Buffer) (stored : option GError)
         (t : list event) (path : string),
    g_file_get_contents W "/proc/swaps" = (Some buf, stored) ->
    bytes buf = EmptyString ->
    resolve W (store None stored) device = (t, Returned (inr path)) ->
    path <> EmptyString ->
    (0 < fuel)%nat ->
    bd_swap_swapstatus W fuel device
    = (EvGetContents "/proc/swaps" :: t, Returned (false, None)).
Proof.
  intros fuel device buf stored t path Hreg Hempty Hres Hpath Hfuel.
  rewrite (bd_swap_swapstatus_resolved W fuel device buf stored t path Hreg Hres).
  assert (Hat : forall p : Z, string_at buf p = EmptyString)
    by (intros p; unfold string_at; rewrite Hempty, drop_empty; reflexivity).
  unfold after_newline. rewrite !Hat. cbn [strchr].
  assert (Hno : String.prefix path EmptyString = false)
    by (destruct path; [contradiction | reflexivity]).
  unfold g_str_has_prefix. rewrite Hno.
  destruct fuel as [|fuel]; [lia|]. cbn [scan_lines].
  rewrite Hempty. cbn [String.length Z.of_nat].
  replace (index_of buf (gsize_wrap (0 + 1)) <? 0) with false.
  - rewrite andb_false_r. reflexivity.
  - symmetry. apply Z.ltb_ge. unfold index_of, gsize_wrap.
    apply Z.mod_pos_bound. reflexivity.
Qed.

(** X14. A device-mapper alias and the node it points to get the same
    answer: for a path that starts with "/dev/mapper" and links to
    "../name", the call ends as the call on "/dev/name" does (as long as
    that path is no alias itself). *)
Theorem bd_swap_swapstatus_alias_agrees :
  forall (fuel : nat) (device name : string) (buf : Buffer) (stored stored' : option GError),
    g_file_get_contents W "/proc/swaps" = (Some buf, stored) ->
    String.prefix "/dev/mapper" device = true ->
    g_file_read_link W device = (Some ("../" ++ name)%string, stored') ->
    String.prefix "/dev/mapper" ("/dev/" ++ name)%string = false ->
    snd (bd_swap_swapstatus W fuel device)
    = snd (bd_swap_swapstatus W fuel ("/dev/" ++ name)%string).
Proof.
  intros fuel device name buf stored stored' Hreg Halias Hlink Hnode.
  assert (Hdev : resolve W (store None stored) device
                 = ([EvReadLink device], Returned (inr ("/dev/" ++ name)%string))).
  { unfold resolve, device_mapper_step, g_str_has_prefix. rewrite Halias, Hlink.
    reflexivity. }
  assert (Hcanon : resolve W (store None stored) ("/dev/" ++ name)%string
                   = ([], Returned (inr ("/dev/" ++ name)%string))).
  { unfold resolve, device_mapper_step, g_str_has_prefix. rewrite Hnode. reflexivity. }
  rewrite (bd_swap_swapstatus_resolved W fuel device buf stored _ _ Hreg Hdev).
  rewrite (bd_swap_swapstatus_resolved W fuel _ buf stored _ _ Hreg Hcanon).
  reflexivity.
Qed.

End StatusEdges.

(** ** Status: shorter paths *)

Lemma prefix_trans (a b c : string) :
  String.prefix a b = true -> String.prefix b c = true -> String.prefix a c = true.
Proof.
  revert b c. induction a as [|x a IH]; intros b c Hab Hbc.
  - apply prefix_empty.
  - destruct b as [|y b]; [discriminate Hab|].
    destruct c as [|z c]; [discriminate Hbc|].
    rewrite prefix_cons in *.
    apply andb_true_iff in Hab as [Hxy Hab]. apply andb_true_iff in Hbc as [Hyz Hbc].
    apply Ascii.eqb_eq in Hxy. subst y. rewrite Hyz. exact (IH b c Hab Hbc).
Qed.

(** The loop finds for a prefix of the path what it finds for the path. *)
Lemma scan_lines_shorter (buf : Buffer) (p q : string) :
  String.prefix q p = true ->
  forall (fuel : nat) (next_line : Z),
    scan_lines fuel buf p next_line = Some true ->
    scan_lines fuel buf q next_line = Some true.
Proof.
  intros Hqp. induction fuel as [|fuel IH]; intros next_line H; [discriminate H|].
  cbn [scan_lines] in *.
  destruct (negb (next_line =? 0)
            && (index_of buf next_line <? Z.of_nat (String.length (bytes buf))));
    [|discriminate H].
  unfold g_str_has_prefix in *.
  destruct (String.prefix q (string_at buf next_line)) eqn:Hq; [reflexivity|].
  destruct (String.prefix p (string_at buf next_line)) eqn:Hp.
  - rewrite (prefix_trans _ _ _ Hqp Hp) in Hq. discriminate Hq.
  - apply IH. exact H.
Qed.

(** X15. Shortening a path never turns active into inactive: when
    [bd_swap_swapstatus] returns TRUE for a path that is no device-mapper
    alias, it returns TRUE for every prefix of that path, line feeds or not
    and without any assumption on the buffer. *)
Theorem bd_swap_swapstatus_shorter_path :
  forall (W : World) (fuel : nat) (p q : string),
    String.prefix q p = true ->
    String.prefix "/dev/mapper" p = false ->
    snd (bd_swap_swapstatus W fuel p) = Returned (true, None) ->
    snd (bd_swap_swapstatus W fuel q) = Returned (true, None).
Proof.
  intros W fuel p q Hqp Hp.
  assert (Hq : String.prefix "/dev/mapper" q = false).
  { destruct (String.prefix "/dev/mapper" q) eqn:E; [|reflexivity].
    rewrite (prefix_trans _ _ _ E Hqp) in Hp. discriminate Hp. }
  unfold bd_swap_swapstatus, device_mapper_step, g_str_has_prefix.
  rewrite Hp, Hq.
  destruct (g_file_get_contents W "/proc/swaps") as [[buf|] stored].
  - unfold bind. run_simpl. cbn [real_or_device].
    destruct (String.prefix q (string_at buf (addr buf))) eqn:Eq; [reflexivity|].
    destruct (String.prefix p (string_at buf (addr buf))) eqn:Ep.
    + rewrite (prefix_trans _ _ _ Hqp Ep) in Eq. discriminate Eq.
    + destruct (scan_lines fuel buf p (after_newline buf (addr buf))) as [[|]|] eqn:Escan;
        run_simpl; intros H; try discriminate H.
      rewrite (scan_lines_shorter buf p q Hqp fuel _ Escan). reflexivity.
  - run_cases; intros H; discriminate H.
Qed.

Lemma bd_swap_swapstatus_shorter_path_witness :
  snd (bd_swap_swapstatus (registry_world sda12_registry no_link) 100 "/dev/sda1")
  = Returned (true, None).
Proof.
  apply (bd_swap_swapstatus_shorter_path (registry_world sda12_registry no_link) 100
           "/dev/sda12" "/dev/sda1"); reflexivity.
Defined.

Lemma bd_swap_swapstatus_empty_path_witness :
  bd_swap_swapstatus (registry_world EmptyString no_link) 0 EmptyString
  = ([EvGetContents "/proc/swaps"], Returned (true, None)).
Proof.
  exact (bd_swap_swapstatus_empty_path (registry_world EmptyString no_link) 0
           {| addr := 4096; bytes := EmptyString |} None eq_refl).
Defined.

Lemma bd_swap_swapstatus_empty_registry_witness :
  bd_swap_swapstatus (registry_world EmptyString no_link) 1 "/dev/sda1"
  = ([EvGetContents "/proc/swaps"], Returned (false, None)).
Proof.
  apply (bd_swap_swapstatus_empty_registry (registry_world EmptyString no_link) 1
           "/dev/sda1" {| addr := 4096; bytes := EmptyString |} None [] "/dev/sda1"
           eq_refl eq_refl eq_refl).
  - discriminate.
  - lia.
Defined.

Lemma bd_swap_swapstatus_alias_agrees_witness :
  snd (bd_swap_swapstatus (registry_world dm2_registry (Some "../dm-2", None)) 100
         "/dev/mapper/vg-lv")
  = snd (bd_swap_swapstatus (registry_world dm2_registry (Some "../dm-2", None)) 100
           "/dev/dm-2").
Proof.
  exact (bd_swap_swapstatus_alias_agrees
           (registry_world dm2_registry (Some "../dm-2", None)) 100
           "/dev/mapper/vg-lv" "dm-2" {| addr := 4096; bytes := dm2_registry |} None None
           eq_refl eq_refl eq_refl eq_refl).
Defined.

(** ** Status: the call always returns *)



